(** * Blinko Telegram bot: credential store, remote note client, command handlers

    A shallow embedding of [storage.py], [blinko_api.py] and the command
    handlers of [bot.py], and the properties of them that the specification
    states.

    Conventions of the embedding.
    - A Python [str] is the list of its code points, [bytes] the list of its
      byte values, both as [Z].
    - A Python exception is a value of [exn]; a computation that may raise
      returns [res A].  A [try ... except Exception] block is a [match] on
      the [res] of its body.
    - The SQLite file is the value [DB] threaded through the storage methods;
      a table is the list of its rows.
    - What the process cannot decide by itself is an argument: the Fernet
      cipher ([Fernet]), the remote server and the network ([transport]),
      whether SQLite faults, the clock, Telegram's answer to a sent message. *)

From Stdlib Require Import ZArith List Bool Lia String Ascii.
Import ListNotations.
Open Scope Z_scope.

(* ================================================================== *)
(** * Part I. Definitions                                               *)
(* ================================================================== *)

(** ** Exceptions and results *)

Inductive exn : Type :=
| UnicodeEncodeError
| UnicodeDecodeError
| InvalidToken            (* cryptography.fernet.InvalidToken *)
| SqliteError             (* any sqlite3.Error *)
| ReqReadTimeout          (* requests: a Timeout *)
| ReqConnectTimeout       (* requests: a Timeout and a ConnectionError *)
| ReqConnectionError      (* requests: a ConnectionError, no Timeout *)
| ReqOther                (* requests: any other RequestException *)
| JSONDecodeError
| AttributeError
| KeyError
| TelegramError.

(** [isinstance(e, requests.exceptions.Timeout)] *)
Definition is_timeout (e : exn) : bool :=
  match e with
  | ReqReadTimeout | ReqConnectTimeout => true
  | _ => false
  end.

(** [isinstance(e, requests.exceptions.ConnectionError)] *)
Definition is_connection_error (e : exn) : bool :=
  match e with
  | ReqConnectTimeout | ReqConnectionError => true
  | _ => false
  end.

Inductive res (A : Type) : Type :=
| Ok (a : A)
| Raise (e : exn).
Arguments Ok {A} a.
Arguments Raise {A} e.

Definition rbind {A B : Type} (m : res A) (k : A -> res B) : res B :=
  match m with
  | Ok a => k a
  | Raise e => Raise e
  end.

Declare Scope res_scope.
Delimit Scope res_scope with res.
Notation "x <- m ;; k" := (rbind m (fun x => k))
  (at level 61, m at next level, right associativity) : res_scope.

(** ** Python strings *)

Module PyStr.

Definition pystr : Type := list Z.

(** The code points of an ASCII literal. *)
Definition lit (s : string) : pystr :=
  map (fun c => Z.of_nat (nat_of_ascii c)) (list_ascii_of_string s).

Fixpoint eqb (a b : pystr) : bool :=
  match a, b with
  | [], [] => true
  | x :: a', y :: b' => (x =? y) && eqb a' b'
  | _, _ => false
  end.

(** [len(s)] *)
Definition len (s : pystr) : Z := Z.of_nat (List.length s).

(** [str.isspace] on one character: CPython's [_PyUnicode_IsWhitespace]. *)
Definition isspace (c : Z) : bool :=
  ((0x09 <=? c) && (c <=? 0x0D)) || ((0x1C <=? c) && (c <=? 0x20))
  || (c =? 0x85) || (c =? 0xA0) || (c =? 0x1680)
  || ((0x2000 <=? c) && (c <=? 0x200A))
  || (c =? 0x2028) || (c =? 0x2029) || (c =? 0x202F) || (c =? 0x205F)
  || (c =? 0x3000).

Fixpoint dropwhile (p : Z -> bool) (s : pystr) : pystr :=
  match s with
  | [] => []
  | c :: s' => if p c then dropwhile p s' else s
  end.

(** [s.lstrip()], [s.rstrip()], [s.strip()] *)
Definition lstrip (s : pystr) : pystr := dropwhile isspace s.
Definition rstrip (s : pystr) : pystr := rev (dropwhile isspace (rev s)).
Definition strip (s : pystr) : pystr := rstrip (lstrip s).

(** [s.rstrip(chars)] for a one-character [chars] *)
Definition rstrip_char (ch : Z) (s : pystr) : pystr :=
  rev (dropwhile (Z.eqb ch) (rev s)).

(** [sep.join(parts)] *)
Fixpoint join (sep : pystr) (parts : list pystr) : pystr :=
  match parts with
  | [] => []
  | [p] => p
  | p :: rest => p ++ sep ++ join sep rest
  end.

(** Truth value of a string: [not s] is [negb (truthy s)]. *)
Definition truthy (s : pystr) : bool :=
  match s with [] => false | _ => true end.

(** [s[:n]] for [n >= 0] *)
Definition prefix (n : nat) (s : pystr) : pystr := firstn n s.

(** [str(n)] for an [int]. *)
Fixpoint digits (fuel : nat) (n : Z) (acc : pystr) : pystr :=
  match fuel with
  | O => acc
  | S fuel' =>
      let acc' := (48 + n mod 10) :: acc in
      if n <? 10 then acc' else digits fuel' (n / 10) acc'
  end.

Definition of_int (n : Z) : pystr :=
  if n <? 0 then 45 :: digits (Z.to_nat (- n)) (- n) []
  else digits (S (Z.to_nat n)) n [].

End PyStr.
Export PyStr.

(** ** UTF-8, the codec of [str.encode()] and [bytes.decode()] *)

Module Utf8.

Definition surrogate (c : Z) : bool := (0xD800 <=? c) && (c <=? 0xDFFF).

Definition encode_cp (c : Z) : res (list Z) :=
  if c <? 0 then Raise UnicodeEncodeError
  else if c <? 0x80 then Ok [c]
  else if c <? 0x800 then Ok [0xC0 + c / 64; 0x80 + c mod 64]
  else if c <? 0x10000 then
    if surrogate c then Raise UnicodeEncodeError
    else Ok [0xE0 + c / 4096; 0x80 + (c / 64) mod 64; 0x80 + c mod 64]
  else if c <? 0x110000 then
    Ok [0xF0 + c / 262144; 0x80 + (c / 4096) mod 64;
        0x80 + (c / 64) mod 64; 0x80 + c mod 64]
  else Raise UnicodeEncodeError.

(** [s.encode()] *)
Fixpoint encode (s : pystr) : res (list Z) :=
  match s with
  | [] => Ok []
  | c :: s' =>
      (bs <- encode_cp c ;; rest <- encode s' ;; Ok (bs ++ rest))%res
  end.

Definition cont (b : Z) : bool := (0x80 <=? b) && (b <? 0xC0).

Definition push (c : Z) (r : res pystr) : res pystr :=
  (s <- r ;; Ok (c :: s))%res.

(** [b.decode()]: strict, rejects overlong forms, surrogates and values
    above U+10FFFF. *)
Fixpoint decode (bs : list Z) : res pystr :=
  match bs with
  | [] => Ok []
  | b0 :: r0 =>
      if (0 <=? b0) && (b0 <? 0x80) then push b0 (decode r0)
      else if (0xC2 <=? b0) && (b0 <? 0xE0) then
        match r0 with
        | b1 :: r1 =>
            if cont b1
            then push ((b0 - 0xC0) * 64 + (b1 - 0x80)) (decode r1)
            else Raise UnicodeDecodeError
        | _ => Raise UnicodeDecodeError
        end
      else if (0xE0 <=? b0) && (b0 <? 0xF0) then
        match r0 with
        | b1 :: b2 :: r2 =>
            let c := (b0 - 0xE0) * 4096 + (b1 - 0x80) * 64 + (b2 - 0x80) in
            if cont b1 && cont b2 && (0x800 <=? c) && negb (surrogate c)
            then push c (decode r2)
            else Raise UnicodeDecodeError
        | _ => Raise UnicodeDecodeError
        end
      else if (0xF0 <=? b0) && (b0 <? 0xF5) then
        match r0 with
        | b1 :: b2 :: b3 :: r3 =>
            let c := (b0 - 0xF0) * 262144 + (b1 - 0x80) * 4096
                     + (b2 - 0x80) * 64 + (b3 - 0x80) in
            if cont b1 && cont b2 && cont b3
               && (0x10000 <=? c) && (c <? 0x110000)
            then push c (decode r3)
            else Raise UnicodeDecodeError
        | _ => Raise UnicodeDecodeError
        end
      else Raise UnicodeDecodeError
  end.

(** A string that [encode] accepts: every element a Unicode scalar value. *)
Definition scalar (c : Z) : Prop :=
  0 <= c < 0x110000 /\ ~ (0xD800 <= c <= 0xDFFF).

Definition ascii_byte (b : Z) : Prop := 0 <= b < 0x80.

Definition byte (b : Z) : Prop := 0 <= b < 256.

End Utf8.

(** ** Python values: parsed JSON, and the dictionaries the client returns *)

Module PyVal.

(** A [float] is kept as what this program can observe of it: its truth
    value (it is not zero) and its [repr], which is never empty. *)
Record pyfloat : Type := {
  f_nonzero : bool;
  f_repr_hd : Z;
  f_repr_tl : pystr
}.

#[local] Set Warnings "-register-all".

Inductive pyval : Type :=
| VNone
| VBool (b : bool)
| VInt (n : Z)
| VFloat (f : pyfloat)
| VStr (s : pystr)
| VList (items : list pyval)
| VDict (items : list (pystr * pyval)).

(** A [dict] with [str] keys, in insertion order, keys distinct. *)
Definition pydict : Type := list (pystr * pyval).

(** [d.get(k)], [None] of Rocq for a missing key *)
Fixpoint lookup (d : pydict) (k : pystr) : option pyval :=
  match d with
  | [] => None
  | (k', v) :: d' => if PyStr.eqb k' k then Some v else lookup d' k
  end.

(** [k in d] *)
Definition contains (d : pydict) (k : pystr) : bool :=
  match lookup d k with Some _ => true | None => false end.

(** [d[k]] *)
Definition item (d : pydict) (k : pystr) : res pyval :=
  match lookup d k with Some v => Ok v | None => Raise KeyError end.

(** Truth value, as [if v:] and [not v] take it. *)
Definition truth (v : pyval) : bool :=
  match v with
  | VNone => false
  | VBool b => b
  | VInt n => negb (n =? 0)
  | VFloat f => f_nonzero f
  | VStr s => PyStr.truthy s
  | VList items => match items with [] => false | _ => true end
  | VDict items => match items with [] => false | _ => true end
  end.

(** [v == s] for a [str] literal [s] *)
Definition eq_str (v : pyval) (s : pystr) : bool :=
  match v with
  | VStr t => PyStr.eqb t s
  | _ => false
  end.

(** Text that is not modelled: what is between the brackets of the [repr]
    of a list or of a dict, and the message [str(e)] of an exception. *)
Class PyRepr : Type := {
  repr_items : list pyval -> pystr;
  repr_pairs : list (pystr * pyval) -> pystr;
  exn_str : exn -> pystr
}.

(** [str(v)] *)
Definition str {R : PyRepr} (v : pyval) : pystr :=
  match v with
  | VNone => lit "None"
  | VBool true => lit "True"
  | VBool false => lit "False"
  | VInt n => PyStr.of_int n
  | VFloat f => f_repr_hd f :: f_repr_tl f
  | VStr s => s
  | VList items => lit "[" ++ repr_items items ++ lit "]"
  | VDict items => lit "{" ++ repr_pairs items ++ lit "}"
  end.

End PyVal.
Export PyVal.

(** ** The cipher: [cryptography.fernet.Fernet] *)

(** The library is not part of the program.  [fkey] is a [Fernet] object,
    [fnonce] what [encrypt] draws from the system (the IV and the time);
    [fernet_decrypt] answers [None] where the library raises
    [InvalidToken]. *)
Class Fernet : Type := {
  fkey : Type;
  fnonce : Type;
  fernet_encrypt : fkey -> fnonce -> list Z -> list Z;
  fernet_decrypt : fkey -> list Z -> option (list Z)
}.

(** The contract of the library that the program relies on: a token
    decrypts under the key that made it, is rejected under any other key,
    and is ASCII text (URL-safe base64). *)
Class FernetLaws (F : Fernet) : Prop := {
  decrypt_encrypt : forall (k : fkey) (n : fnonce) (p : list Z),
    Forall Utf8.byte p -> fernet_decrypt k (fernet_encrypt k n p) = Some p;
  decrypt_other_key : forall (k1 k2 : fkey) (n : fnonce) (p : list Z),
    k1 <> k2 -> Forall Utf8.byte p ->
    fernet_decrypt k2 (fernet_encrypt k1 n p) = None;
  token_ascii : forall (k : fkey) (n : fnonce) (p : list Z),
    Forall Utf8.byte p -> Forall Utf8.ascii_byte (fernet_encrypt k n p)
}.

(** ** storage.py *)

Module Storage.

(** Rows of [user_tokens] and [note_messages]; timestamps are the text
    SQLite's [CURRENT_TIMESTAMP] gives. *)
Record user_row : Type := {
  user_id : Z;
  username : pystr;
  encrypted_token : pystr;
  blinko_url : option pystr;
  created_at : pystr;
  updated_at : pystr
}.

Record note_row : Type := {
  n_user_id : Z;
  message_id : Z;
  chat_id : Z;
  note_id : pystr;
  note_type : Z;
  n_created_at : pystr
}.

Record DB : Type := {
  user_tokens : list user_row;
  note_messages : list note_row
}.

(** The file after [_init_db] on a fresh path. *)
Definition empty_db : DB := {| user_tokens := []; note_messages := [] |}.

(** What one [with sqlite3.connect(...)] block meets: whether SQLite raises
    in it, and the time. *)
Record sqlite_env : Type := {
  sqlite_fault : bool;
  current_timestamp : pystr
}.

(** A block that raises is rolled back: the caller keeps the old [DB]. *)
Definition transaction {A : Type} (env : sqlite_env) (body : res A) : res A :=
  if sqlite_fault env then Raise SqliteError else body.

Record UserStorage {F : Fernet} : Type := {
  db_path : pystr;
  cipher : fkey
}.

(** [PRIMARY KEY] of the two tables *)
Definition user_key (uid : Z) (r : user_row) : bool := user_id r =? uid.

Definition note_key (uid mid cid : Z) (r : note_row) : bool :=
  (n_user_id r =? uid) && (message_id r =? mid) && (chat_id r =? cid).

(** [INSERT OR REPLACE INTO user_tokens (user_id, username, encrypted_token,
    blinko_url, updated_at) VALUES (?, ?, ?, ?, CURRENT_TIMESTAMP)]: the rows
    in conflict on the primary key are deleted, the new row is inserted;
    [created_at], not named, takes its default [CURRENT_TIMESTAMP]. *)
Definition insert_or_replace_user_tokens (now : pystr)
    (uid : Z) (uname enc : pystr) (url : option pystr)
    (t : list user_row) : list user_row :=
  filter (fun r => negb (user_key uid r)) t
  ++ [ {| user_id := uid; username := uname; encrypted_token := enc;
          blinko_url := url; created_at := now; updated_at := now |} ].

(** [INSERT OR REPLACE INTO note_messages (user_id, message_id, chat_id,
    note_id, note_type) VALUES (?, ?, ?, ?, ?)] *)
Definition insert_or_replace_note_messages (now : pystr)
    (uid mid cid : Z) (nid : pystr) (ntype : Z)
    (t : list note_row) : list note_row :=
  filter (fun r => negb (note_key uid mid cid r)) t
  ++ [ {| n_user_id := uid; message_id := mid; chat_id := cid;
          note_id := nid; note_type := ntype; n_created_at := now |} ].

(** [self.cipher.encrypt(token.encode()).decode()] *)
Definition encrypt_token {F : Fernet} (k : fkey) (nonce : fnonce)
    (token : pystr) : res pystr :=
  (plain <- Utf8.encode token ;;
   Utf8.decode (fernet_encrypt k nonce plain))%res.

(** [self.cipher.decrypt(encrypted_token.encode()).decode()] *)
Definition decrypt_token {F : Fernet} (k : fkey)
    (encrypted_token : pystr) : res pystr :=
  (ct <- Utf8.encode encrypted_token ;;
   plain <- match fernet_decrypt k ct with
            | Some p => Ok p
            | None => Raise InvalidToken
            end ;;
   Utf8.decode plain)%res.

(** [store_user_token]: the new file and the returned [bool]. *)
Definition store_user_token {F : Fernet} (self : UserStorage)
    (env : sqlite_env) (nonce : fnonce) (db : DB)
    (user_id : Z) (username token : pystr) (blinko_url : option pystr)
    : bool * DB :=
  match
    (encrypted_token <- encrypt_token (cipher self) nonce token ;;
     transaction env
       (Ok {| user_tokens :=
                insert_or_replace_user_tokens (current_timestamp env)
                  user_id username encrypted_token blinko_url
                  (user_tokens db);
              note_messages := note_messages db |}))%res
  with
  | Ok db' => (true, db')
  | Raise _ => (false, db)
  end.

(** [get_user_token]: [Some token], or [None] for Python's [None]. *)
Definition get_user_token {F : Fernet} (self : UserStorage)
    (env : sqlite_env) (db : DB) (user_id : Z) : option pystr :=
  match
    (transaction env
       (let result := find (user_key user_id) (user_tokens db) in
        match result with
        | Some row =>
            token <- decrypt_token (cipher self) (encrypted_token row) ;;
            Ok (Some token)
        | None => Ok None
        end))%res
  with
  | Ok r => r
  | Raise _ => None
  end.

(** The dictionary [get_user_config] returns. *)
Record user_config : Type := {
  cfg_token : pystr;
  cfg_blinko_url : option pystr;
  cfg_username : pystr;
  cfg_created_at : pystr
}.

Definition get_user_config {F : Fernet} (self : UserStorage)
    (env : sqlite_env) (db : DB) (user_id : Z) : option user_config :=
  match
    (transaction env
       (let result := find (user_key user_id) (user_tokens db) in
        match result with
        | Some row =>
            token <- decrypt_token (cipher self) (encrypted_token row) ;;
            Ok (Some {| cfg_token := token;
                        cfg_blinko_url := blinko_url row;
                        cfg_username := username row;
                        cfg_created_at := created_at row |})
        | None => Ok None
        end))%res
  with
  | Ok r => r
  | Raise _ => None
  end.

(** [remove_user_token] *)
Definition remove_user_token {F : Fernet} (self : UserStorage)
    (env : sqlite_env) (db : DB) (user_id : Z) : bool * DB :=
  match
    transaction env
      (Ok {| user_tokens :=
               filter (fun r => negb (user_key user_id r)) (user_tokens db);
             note_messages := note_messages db |})
  with
  | Ok db' => (true, db')
  | Raise _ => (false, db)
  end.

(** [get_user_count] *)
Definition get_user_count {F : Fernet} (self : UserStorage)
    (env : sqlite_env) (db : DB) : Z :=
  match transaction env (Ok (Z.of_nat (List.length (user_tokens db)))) with
  | Ok n => n
  | Raise _ => 0
  end.

(** [store_note_message] *)
Definition store_note_message {F : Fernet} (self : UserStorage)
    (env : sqlite_env) (db : DB)
    (user_id message_id chat_id : Z) (note_id : pystr) (note_type : Z)
    : bool * DB :=
  match
    transaction env
      (Ok {| user_tokens := user_tokens db;
             note_messages :=
               insert_or_replace_note_messages (current_timestamp env)
                 user_id message_id chat_id note_id note_type
                 (note_messages db) |})
  with
  | Ok db' => (true, db')
  | Raise _ => (false, db)
  end.

(** [get_note_from_reply]: the pair [(note_id, note_type)] of the returned
    dictionary. *)
Definition get_note_from_reply {F : Fernet} (self : UserStorage)
    (env : sqlite_env) (db : DB)
    (user_id reply_to_message_id chat_id : Z) : option (pystr * Z) :=
  match
    transaction env
      (let result :=
         find (note_key user_id reply_to_message_id chat_id)
              (note_messages db) in
       match result with
       | Some row => Ok (Some (note_id row, note_type row))
       | None => Ok None
       end)
  with
  | Ok r => r
  | Raise _ => None
  end.

(** The constraint [user_id INTEGER PRIMARY KEY]: no two rows of
    [user_tokens] have the same [user_id]. *)
Definition primary_key (d : DB) : Prop :=
  NoDup (map user_id (user_tokens d)).

(** The rows of [user_tokens] for one user. *)
Definition rows_of (uid : Z) (d : DB) : list user_row :=
  filter (user_key uid) (user_tokens d).

(** Every correlation row names a note. *)
Definition note_ids_nonempty (d : DB) : Prop :=
  Forall (fun r => note_id r <> []) (note_messages d).

Definition consistent (d : DB) : Prop :=
  primary_key d /\ note_ids_nonempty d.

End Storage.

(** ** blinko_api.py *)

Module BlinkoApi.

Inductive http_method : Type := GET | POST.

(** The body [note_data]; [nd_id] is present in an update only. *)
Record note_data : Type := {
  nd_id : option pystr;
  nd_content : pystr;
  nd_type : Z
}.

(** [urljoin(url_base, url_ref)], kept as its two arguments. *)
Record url : Type := {
  url_base : pystr;
  url_ref : pystr
}.

Record Session : Type := {
  headers : list (pystr * pystr);
  verify : bool
}.

Record BlinkoAPI : Type := {
  base_url : pystr;
  session : Session
}.

(** A request as the session sends it: the session's [verify] goes with
    it. *)
Record request : Type := {
  r_method : http_method;
  r_url : url;
  r_session : Session;
  r_headers : list (pystr * pystr);
  r_json : option note_data;
  r_timeout : Z
}.

(** A response: its status and what [response.json()] gives. *)
Record response : Type := {
  status_code : Z;
  json : res pyval
}.

(** The server and the network: what [session.post] or [session.get]
    does with a request. *)
Definition transport : Type := request -> res response.

(** Categories handed to [urllib3.disable_warnings]. *)
Inductive warning_category : Type := InsecureRequestWarning.

(** [BlinkoAPI.__init__]: the object, and the process's list of silenced
    warning categories after it. *)
Definition init (base_url : pystr) (silenced : list warning_category)
    : BlinkoAPI * list warning_category :=
  ({| base_url := base_url;
      session := {| headers :=
                      [ (lit "Content-Type", lit "application/json");
                        (lit "User-Agent", lit "BlinkoTelegramBot/1.0") ];
                    verify := false |} |},
   InsecureRequestWarning :: silenced).

(** [result.get(k, default)] on parsed JSON: only a [dict] has [get]. *)
Definition get (result : pyval) (k : pystr) (default : pyval) : res pyval :=
  match result with
  | VDict d => Ok (match lookup d k with Some v => v | None => default end)
  | _ => Raise AttributeError
  end.

Definition validation_failure : pydict :=
  [ (lit "success", VBool false);
    (lit "error", VStr (lit "validation"));
    (lit "message", VStr (lit "Note content cannot be empty")) ].

Definition unauthorized_failure (message : pystr) : pydict :=
  [ (lit "success", VBool false);
    (lit "error", VStr (lit "unauthorized"));
    (lit "message", VStr message) ].

Definition api_error_failure (status : Z) : pydict :=
  [ (lit "success", VBool false);
    (lit "error", VStr (lit "api_error"));
    (lit "message", VStr (lit "API error: " ++ PyStr.of_int status));
    (lit "status_code", VInt status) ].

Definition success_result (result note_id : pyval) : pydict :=
  [ (lit "success", VBool true);
    (lit "data", result);
    (lit "note_id", note_id) ].

(** The three [except] clauses, in their order. *)
Definition on_exception {R : PyRepr} (timeout_message connection_message : pystr)
    (e : exn) : pydict :=
  if is_timeout e then
    [ (lit "success", VBool false);
      (lit "error", VStr (lit "timeout"));
      (lit "message", VStr timeout_message) ]
  else if is_connection_error e then
    [ (lit "success", VBool false);
      (lit "error", VStr (lit "connection"));
      (lit "message", VStr connection_message) ]
  else
    [ (lit "success", VBool false);
      (lit "error", VStr (lit "unexpected"));
      (lit "message", VStr (lit "Unexpected error: " ++ exn_str e)) ].

Definition upsert_request (self : BlinkoAPI) (token : pystr)
    (body : note_data) : request :=
  let base_url := rstrip_char 47 (base_url self) ++ lit "/" in
  let endpoint := lit "note/upsert" in
  {| r_method := POST;
     r_url := {| url_base := base_url; url_ref := endpoint |};
     r_session := session self;
     r_headers := [ (lit "Authorization", lit "Bearer " ++ token) ];
     r_json := Some body;
     r_timeout := 30 |}.

(** [create_note]: the returned dictionary and the requests sent. *)
Definition create_note {R : PyRepr} (self : BlinkoAPI) (net : transport)
    (token content : pystr) (note_type : Z) : pydict * list request :=
  if negb (PyStr.truthy content) || negb (PyStr.truthy (strip content)) then
    (validation_failure, [])
  else
    let note_data :=
      {| nd_id := None; nd_content := strip content; nd_type := note_type |} in
    let req := upsert_request self token note_data in
    (match
       (response <- net req ;;
        if status_code response =? 401 then
          Ok (unauthorized_failure
                (lit "Invalid or expired token. Please reconfigure with /configure"))
        else if status_code response >=? 400 then
          Ok (api_error_failure (status_code response))
        else
          result <- json response ;;
          note_id <- get result (lit "id") VNone ;;
          Ok (success_result result note_id))%res
     with
     | Ok d => d
     | Raise e =>
         on_exception
           (lit "Request timed out. Please try again.")
           (lit "Failed to connect to Blinko server. Please check your configuration.")
           e
     end, [req]).

(** [update_note] *)
Definition update_note {R : PyRepr} (self : BlinkoAPI) (net : transport)
    (token note_id content : pystr) (note_type : Z)
    : pydict * list request :=
  if negb (PyStr.truthy content) || negb (PyStr.truthy (strip content)) then
    (validation_failure, [])
  else
    let note_data :=
      {| nd_id := Some note_id; nd_content := strip content;
         nd_type := note_type |} in
    let req := upsert_request self token note_data in
    (match
       (response <- net req ;;
        if status_code response =? 401 then
          Ok (unauthorized_failure
                (lit "Invalid or expired token. Please reconfigure with /configure"))
        else if status_code response >=? 400 then
          Ok (api_error_failure (status_code response))
        else
          result <- json response ;;
          new_id <- get result (lit "id") (VStr note_id) ;;
          Ok (success_result result new_id))%res
     with
     | Ok d => d
     | Raise e =>
         on_exception
           (lit "Request timed out. Please try again.")
           (lit "Failed to connect to Blinko server. Please check your configuration.")
           e
     end, [req]).

(** The request of [test_token]. *)
Definition probe_request (self : BlinkoAPI) (token : pystr) : request :=
  let headers := [ (lit "Authorization", lit "Bearer " ++ token) ] in
  let base_url := rstrip_char 47 (base_url self) ++ lit "/" in
  {| r_method := GET;
     r_url := {| url_base := base_url; url_ref := lit "note" |};
     r_session := session self;
     r_headers := headers;
     r_json := None;
     r_timeout := 10 |}.

(** [test_token] *)
Definition test_token {R : PyRepr} (self : BlinkoAPI) (net : transport)
    (token : pystr) : pydict * list request :=
  let req := probe_request self token in
  (match
     (response <- net req ;;
      if status_code response =? 401 then
        Ok (unauthorized_failure (lit "Invalid or expired token"))
      else if (status_code response =? 200) || (status_code response =? 403)
      then
        Ok [ (lit "success", VBool true);
             (lit "message", VStr (lit "Token is valid")) ]
      else
        Ok [ (lit "success", VBool true);
             (lit "message",
              VStr (lit "Token appears valid (authentication successful)")) ])%res
   with
   | Ok d => d
   | Raise e =>
       on_exception
         (lit "Request timed out. Server may be unavailable.")
         (lit "Failed to connect to Blinko server.")
         e
   end, [req]).

(** The result taxonomy of the specification, and the dictionary each
    variant stands for. *)
Inductive Result : Type :=
| Success (remote_note_id : pyval)
| Accepted
| ValidationError
| Unauthorized
| ApiError (status : Z)
| TimeoutFailure
| ConnectionFailure
| UnexpectedError.

Definition classify (d : pydict) : option Result :=
  match lookup d (lit "success") with
  | Some (VBool true) =>
      match lookup d (lit "note_id") with
      | Some v => Some (Success v)
      | None => Some Accepted
      end
  | Some (VBool false) =>
      match lookup d (lit "error") with
      | Some (VStr e) =>
          if PyStr.eqb e (lit "validation") then Some ValidationError
          else if PyStr.eqb e (lit "unauthorized") then Some Unauthorized
          else if PyStr.eqb e (lit "api_error") then
            match lookup d (lit "status_code") with
            | Some (VInt n) => Some (ApiError n)
            | _ => None
            end
          else if PyStr.eqb e (lit "timeout") then Some TimeoutFailure
          else if PyStr.eqb e (lit "connection") then Some ConnectionFailure
          else if PyStr.eqb e (lit "unexpected") then Some UnexpectedError
          else None
      | _ => None
      end
  | _ => None
  end.

End BlinkoApi.

(** ** bot.py *)

Module Bot.
Import Storage BlinkoApi.

(** The messages the handlers send, one constructor per text, with the
    parts of the text that vary. *)
Inductive reply : Type :=
| Welcome (first_name : pystr)
| Help
| NotConfigured
| ConfigurationStatus (active : bool) (username : pystr)
    (issue : option pystr) (configured : pystr)
| ConfigureUsage
| TokenTooShort
| TestingToken
| InvalidTokenReply
| ConnectionErrorReply (message : pystr)
| ConfigurationSuccessful
| ConfigurationNotStored
| TokenNotConfigured
| ContentUsage (type_name : pystr)
| ContentEmpty (type_name : pystr)
| AddedToBlinko (type_name note_info shown : pystr) (ellipsis : bool)
| AuthenticationFailed
| FailedToAdd (type_name message : pystr)
| ConfigurationRemoved
| RemoveFailedOrNotFound
| UpdateContentEmpty
| Updated (type_name shown : pystr) (ellipsis : bool)
| FailedToUpdate (type_name message : pystr).

(** What a handler reads of [update] and [context]. *)
Record Update : Type := {
  user_id : Z;                           (* update.effective_user.id *)
  user_username : option pystr;          (* update.effective_user.username *)
  user_first_name : pystr;
  chat_id : Z;                           (* update.effective_chat.id *)
  text : pystr;                          (* update.message.text *)
  reply_to_message : option (Z * Z);     (* its message_id and from_user.id *)
  args : list pystr;                     (* context.args *)
  bot_id : Z                             (* context.bot.id *)
}.

Record BlinkoTelegramBot {F : Fernet} : Type := {
  storage : UserStorage;
  blinko_api : BlinkoAPI
}.

(** What the handler meets outside the process: the network, SQLite at its
    n-th storage call, the cipher's nonce, and Telegram's answer to a
    message (the [message_id] of the message sent) and to a chat action. *)
Record env {F : Fernet} : Type := {
  net : transport;
  sql : nat -> sqlite_env;
  nonce : fnonce;
  telegram : reply -> res Z;
  chat_action : res unit
}.

(** The state a handler changes: the file, the requests sent to the remote
    service, the messages sent to the chat. *)
Record World : Type := {
  db : DB;
  requests : list request;
  sent : list reply
}.

Definition M (A : Type) : Type := World -> res A * World.

Definition ret {A : Type} (a : A) : M A := fun w => (Ok a, w).

Definition bind {A B : Type} (m : M A) (k : A -> M B) : M B :=
  fun w =>
    match m w with
    | (Ok a, w') => k a w'
    | (Raise e, w') => (Raise e, w')
    end.

Declare Scope bot_scope.
Delimit Scope bot_scope with bot.
Notation "x <- m ;; k" := (bind m (fun x => k))
  (at level 61, m at next level, right associativity) : bot_scope.
Notation "m ;; k" := (bind m (fun _ => k))
  (at level 61, right associativity) : bot_scope.

Definition lift {A : Type} (r : res A) : M A := fun w => (r, w).

(** [await update.message.reply_text(...)] *)
Definition reply_text {F : Fernet} (e : env) (r : reply) : M Z :=
  fun w =>
    match telegram e r with
    | Ok mid =>
        (Ok mid,
         {| db := db w; requests := requests w; sent := sent w ++ [r] |})
    | Raise x => (Raise x, w)
    end.

(** A call of the client: its requests are added to those sent. *)
Definition call_api {A : Type} (c : A * list request) : M A :=
  fun w =>
    (Ok (fst c),
     {| db := db w; requests := requests w ++ snd c; sent := sent w |}).

(** A storage call that writes. *)
Definition write_db {A : Type} (f : DB -> A * DB) : M A :=
  fun w =>
    let (a, db') := f (db w) in
    (Ok a, {| db := db'; requests := requests w; sent := sent w |}).

(** A storage call that reads. *)
Definition read_db {A : Type} (f : DB -> A) : M A :=
  fun w => (Ok (f (db w)), w).

(** [a or b] on an optional string and a string *)
Definition or_else (a : option pystr) (b : pystr) : pystr :=
  match a with
  | Some s => if PyStr.truthy s then s else b
  | None => b
  end.

(** [type_name.title()], for the two names the handlers pass *)
Definition title (s : pystr) : pystr :=
  match s with
  | c :: s' => (if (97 <=? c) && (c <=? 122) then c - 32 else c) :: s'
  | [] => []
  end.

(** [configure_command] *)
Definition configure_command {F : Fernet} {R : PyRepr} (self : BlinkoTelegramBot)
    (e : env) (update : Update) : M unit :=
  let user_id := user_id update in
  let username := or_else (user_username update) (user_first_name update) in
  match args update with
  | [] => (reply_text e ConfigureUsage ;; ret tt)%bot
  | _ =>
    let token := strip (join (lit " ") (args update)) in
    if len token <? 10 then
      (reply_text e TokenTooShort ;; ret tt)%bot
    else
      (reply_text e TestingToken ;;
       test_result <- call_api (test_token (blinko_api self) (net e) token) ;;
       success <- lift (item test_result (lit "success")) ;;
       if negb (truth success) then
         error <- lift (item test_result (lit "error")) ;;
         if eq_str error (lit "unauthorized") then
           reply_text e InvalidTokenReply ;; ret tt
         else
           message <- lift (item test_result (lit "message")) ;;
           reply_text e (ConnectionErrorReply (str message)) ;; ret tt
       else
         stored <- write_db (fun d =>
                     store_user_token (storage self) (sql e 0%nat) (nonce e) d
                       user_id username token None) ;;
         if stored then
           reply_text e ConfigurationSuccessful ;; ret tt
         else
           reply_text e ConfigurationNotStored ;; ret tt)%bot
  end.

(** [_create_note] *)
Definition _create_note {F : Fernet} {R : PyRepr} (self : BlinkoTelegramBot)
    (e : env) (update : Update) (note_type : Z) (type_name : pystr)
    : M unit :=
  let user_id := user_id update in
  (token <- read_db (fun d =>
              get_user_token (storage self) (sql e 0%nat) d user_id) ;;
   match token with
   | None => reply_text e TokenNotConfigured ;; ret tt
   | Some [] => reply_text e TokenNotConfigured ;; ret tt
   | Some token =>
     match args update with
     | [] => reply_text e (ContentUsage type_name) ;; ret tt
     | _ =>
       let note_content := strip (join (lit " ") (args update)) in
       if negb (PyStr.truthy note_content) then
         reply_text e (ContentEmpty (title type_name)) ;; ret tt
       else
         lift (chat_action e) ;;
         result <- call_api
                     (create_note (blinko_api self) (net e)
                        token note_content note_type) ;;
         success <- lift (item result (lit "success")) ;;
         if truth success then
           note_info <-
             (if contains result (lit "note_id") then
                v <- lift (item result (lit "note_id")) ;;
                ret (lit " (ID: " ++ str v ++ lit ")")
              else ret []) ;;
           sent_message <-
             reply_text e
               (AddedToBlinko (title type_name) note_info
                  (prefix 100 note_content) (100 <? len note_content)) ;;
           (if contains result (lit "note_id") then
              v <- lift (item result (lit "note_id")) ;;
              if truth v then
                write_db (fun d =>
                  store_note_message (storage self) (sql e 1%nat) d
                    user_id sent_message (chat_id update) (str v) note_type) ;;
                ret tt
              else ret tt
            else ret tt)
         else
           error <- lift (item result (lit "error")) ;;
           if eq_str error (lit "unauthorized") then
             reply_text e AuthenticationFailed ;; ret tt
           else
             message <- lift (item result (lit "message")) ;;
             reply_text e (FailedToAdd (title type_name) (str message)) ;;
             ret tt
     end
   end)%bot.

(** [note_command] and [blinko_command] *)
Definition note_command {F : Fernet} {R : PyRepr} (self : BlinkoTelegramBot)
    (e : env) (update : Update) : M unit :=
  _create_note self e update 0 (lit "note").

Definition blinko_command {F : Fernet} {R : PyRepr} (self : BlinkoTelegramBot)
    (e : env) (update : Update) : M unit :=
  _create_note self e update 1 (lit "blinko").

(** [reset_command] *)
Definition reset_command {F : Fernet} (self : BlinkoTelegramBot)
    (e : env) (update : Update) : M unit :=
  let user_id := user_id update in
  (removed <- write_db (fun d =>
                remove_user_token (storage self) (sql e 0%nat) d user_id) ;;
   if removed then
     reply_text e ConfigurationRemoved ;; ret tt
   else
     reply_text e RemoveFailedOrNotFound ;; ret tt)%bot.

(** [handle_reply_update] *)
Definition handle_reply_update {F : Fernet} {R : PyRepr} (self : BlinkoTelegramBot)
    (e : env) (update : Update) : M unit :=
  let user_id := user_id update in
  (token <- read_db (fun d =>
              get_user_token (storage self) (sql e 0%nat) d user_id) ;;
   match token with
   | None => reply_text e TokenNotConfigured ;; ret tt
   | Some [] => reply_text e TokenNotConfigured ;; ret tt
   | Some token =>
     match reply_to_message update with
     | None => ret tt
     | Some (reply_to_message_id, from_user_id) =>
       if negb (from_user_id =? bot_id update) then ret tt
       else
         note_info <- read_db (fun d =>
                        get_note_from_reply (storage self) (sql e 1%nat) d
                          user_id reply_to_message_id (chat_id update)) ;;
         match note_info with
         | None => ret tt
         | Some (note_id, note_type) =>
           let new_content := strip (text update) in
           if negb (PyStr.truthy new_content) then
             reply_text e UpdateContentEmpty ;; ret tt
           else
             lift (chat_action e) ;;
             result <- call_api
                         (update_note (blinko_api self) (net e)
                            token note_id new_content note_type) ;;
             let type_name :=
               if note_type =? 0 then lit "note" else lit "blinko" in
             success <- lift (item result (lit "success")) ;;
             if truth success then
               sent_message <-
                 reply_text e
                   (Updated (title type_name)
                      (prefix 100 new_content) (100 <? len new_content)) ;;
               write_db (fun d =>
                 store_note_message (storage self) (sql e 2%nat) d
                   user_id sent_message (chat_id update) note_id note_type) ;;
               ret tt
             else
               error <- lift (item result (lit "error")) ;;
               if eq_str error (lit "unauthorized") then
                 reply_text e AuthenticationFailed ;; ret tt
               else
                 message <- lift (item result (lit "message")) ;;
                 reply_text e (FailedToUpdate (title type_name) (str message)) ;;
                 ret tt
         end
     end
   end)%bot.

(** [start_command] and [help_command] *)
Definition start_command {F : Fernet} (self : BlinkoTelegramBot)
    (e : env) (update : Update) : M unit :=
  (reply_text e (Welcome (user_first_name update)) ;; ret tt)%bot.

Definition help_command {F : Fernet} (self : BlinkoTelegramBot)
    (e : env) (update : Update) : M unit :=
  (reply_text e Help ;; ret tt)%bot.

(** [status_command] *)
Definition status_command {F : Fernet} {R : PyRepr}
    (self : BlinkoTelegramBot) (e : env) (update : Update) : M unit :=
  let user_id := user_id update in
  (config <- read_db (fun d =>
               get_user_config (storage self) (sql e 0%nat) d user_id) ;;
   match config with
   | None => reply_text e NotConfigured ;; ret tt
   | Some config =>
     test_result <- call_api
                      (test_token (blinko_api self) (net e)
                         (cfg_token config)) ;;
     success <- lift (item test_result (lit "success")) ;;
     issue <-
       (if negb (truth success) then
          message <- lift (item test_result (lit "message")) ;;
          ret (Some (str message))
        else ret None) ;;
     reply_text e
       (ConfigurationStatus (truth success) (cfg_username config) issue
          (prefix 10 (cfg_created_at config))) ;;
     ret tt
   end)%bot.

(** The handlers that [_setup_handlers] registers. *)
Inductive handler : Type :=
| OnStart
| OnHelp
| OnConfigure
| OnNote
| OnBlinko
| OnStatus
| OnReset
| OnReply.

Definition handle {F : Fernet} {R : PyRepr} (self : BlinkoTelegramBot)
    (h : handler) (e : env) (update : Update) : M unit :=
  match h with
  | OnStart => start_command self e update
  | OnHelp => help_command self e update
  | OnConfigure => configure_command self e update
  | OnNote => note_command self e update
  | OnBlinko => blinko_command self e update
  | OnStatus => status_command self e update
  | OnReset => reset_command self e update
  | OnReply => handle_reply_update self e update
  end.

(** The states of a run: the bot starts on a fresh file, and every
    update is handled in whatever surroundings it meets. *)
Inductive reachable {F : Fernet} {R : PyRepr} (self : BlinkoTelegramBot)
    : World -> Prop :=
| reachable_start :
    reachable self {| db := empty_db; requests := []; sent := [] |}
| reachable_step (w : World) (h : handler) (e : env) (update : Update) :
    reachable self w ->
    reachable self (snd (handle self h e update w)).

End Bot.

(** ** An instance of the interfaces *)

(** A two-key authenticated cipher over byte strings, with ASCII tokens as
    Fernet's are: the token is a tag naming the key, then two letters per
    byte of the plaintext.  It shows that what the theorems assume of a
    cipher can be met, and gives them concrete inputs. *)

Module Sample.
Import Storage BlinkoApi Bot.

Definition tag (k : bool) : Z := if k then 75 else 76.

Fixpoint letters (p : list Z) : list Z :=
  match p with
  | [] => []
  | b :: p' => (65 + b / 16) :: (65 + b mod 16) :: letters p'
  end.

Definition letter (x : Z) : bool := (65 <=? x) && (x <? 81).

Fixpoint unletters (c : list Z) : option (list Z) :=
  match c with
  | [] => Some []
  | h :: l :: c' =>
      if letter h && letter l then
        match unletters c' with
        | Some p => Some (((h - 65) * 16 + (l - 65)) :: p)
        | None => None
        end
      else None
  | _ => None
  end.

Definition encrypt (k : bool) (_ : unit) (p : list Z) : list Z :=
  tag k :: letters p.

Definition decrypt (k : bool) (c : list Z) : option (list Z) :=
  match c with
  | t :: c' => if t =? tag k then unletters c' else None
  | [] => None
  end.

#[export] Instance cipher : Fernet := {|
  fkey := bool;
  fnonce := unit;
  fernet_encrypt := encrypt;
  fernet_decrypt := decrypt
|}.

#[export] Instance repr : PyRepr := {|
  repr_items := fun _ => lit "...";
  repr_pairs := fun _ => lit "...";
  exn_str := fun _ => lit "error"
|}.

Definition store : UserStorage :=
  {| db_path := lit "./bot_data.db"; Storage.cipher := true |}.

Definition other_store : UserStorage :=
  {| db_path := lit "./bot_data.db"; Storage.cipher := false |}.

Definition quiet : sqlite_env :=
  {| sqlite_fault := false; current_timestamp := lit "2025-01-01 00:00:00" |}.

Definition api : BlinkoAPI :=
  fst (init (lit "https://blinko.example/api/v1") []).

Definition bot : BlinkoTelegramBot :=
  {| storage := store; blinko_api := api |}.

(** A server that answers every request with the given status and body. *)
Definition answering (status : Z) (body : res pyval) : transport :=
  fun _ => Ok {| status_code := status; json := body |}.

(** The surroundings of a handler: nothing fails, Telegram numbers the
    message sent [mid]. *)
Definition calm (t : transport) (mid : Z) : env :=
  {| net := t; sql := fun _ => quiet; nonce := tt;
     telegram := fun _ => Ok mid; chat_action := Ok tt |}.

Definition blank_world : World :=
  {| db := empty_db; requests := []; sent := [] |}.

Definition command (uid : Z) (words : list pystr) : Update :=
  {| Bot.user_id := uid; user_username := Some (lit "ana");
     user_first_name := lit "Ana"; Bot.chat_id := 5; text := [];
     reply_to_message := None; args := words; bot_id := 999 |}.

(** A file with one credential, stored for user 42 under the key [true]. *)
Definition db_42 : DB :=
  snd (store_user_token store quiet tt empty_db 42 (lit "ana")
         (lit "secret-token-0001") None).

Definition world_42 : World :=
  {| db := db_42; requests := []; sent := [] |}.

(** A file whose row for user 7 holds text that is no token of the cipher. *)
Definition db_unreadable : DB :=
  {| user_tokens :=
       [ {| Storage.user_id := 7; username := lit "bob";
            encrypted_token := lit "not-a-fernet-token";
            blinko_url := None;
            created_at := lit "2025-01-01 00:00:00";
            updated_at := lit "2025-01-01 00:00:00" |} ];
     note_messages := [] |}.

End Sample.

(** ** Start-up: [UserStorage.__init__], [_init_db], generate_key.py *)

Module Startup.
Import Storage.

(** The two constructors of keys of the library: [Fernet(key)], [None]
    where it raises [ValueError], and [Fernet.generate_key()], from what
    the system gives as randomness. *)
Class FernetKeys (F : Fernet) : Type := {
  fernet_new : list Z -> option fkey;
  fernet_generate_key : fnonce -> list Z
}.

(** What the library promises of them: a generated key is ASCII text
    (URL-safe base64), not empty, and [Fernet] accepts it. *)
Class FernetKeysLaws {F : Fernet} (K : FernetKeys F) : Prop := {
  generated_ascii : forall n : fnonce,
    Forall Utf8.ascii_byte (fernet_generate_key n);
  generated_nonempty : forall n : fnonce, fernet_generate_key n <> [];
  generated_accepted : forall n : fnonce,
    exists k : fkey, fernet_new (fernet_generate_key n) = Some k
}.

(** The file at [db_path] before [_init_db]: each table is there or not. *)
Record db_file : Type := {
  file_user_tokens : option (list user_row);
  file_note_messages : option (list note_row)
}.

Definition file_of (d : DB) : db_file :=
  {| file_user_tokens := Some (user_tokens d);
     file_note_messages := Some (note_messages d) |}.

(** [CREATE TABLE IF NOT EXISTS]: a table that exists is left as it is. *)
Definition create_table_if_not_exists {A : Type} (t : option (list A))
    : list A :=
  match t with
  | Some rows => rows
  | None => []
  end.

(** [_init_db]: the exception of SQLite is logged and raised again. *)
Definition _init_db (env : sqlite_env) (file : db_file) : res DB :=
  transaction env
    (Ok {| user_tokens := create_table_if_not_exists (file_user_tokens file);
           note_messages :=
             create_table_if_not_exists (file_note_messages file) |}).

(** How [__init__] ends: with the object and the file, or with an
    exception. *)
Inductive started (A : Type) : Type :=
| Started (a : A)
| KeyIsNotText          (* UnicodeEncodeError of [encryption_key.encode()] *)
| KeyRejected           (* ValueError of [Fernet(...)] *)
| DatabaseFailed.       (* the exception of [_init_db] *)
Arguments Started {A} a.
Arguments KeyIsNotText {A}.
Arguments KeyRejected {A}.
Arguments DatabaseFailed {A}.

(** What [__init__] gives: the object, the file, and whether the warning
    "Using auto-generated encryption key" was logged. *)
Record init_outcome {F : Fernet} : Type := {
  the_storage : UserStorage;
  the_db : DB;
  warned_auto_key : bool
}.

(** [UserStorage.__init__] *)
Definition init {F : Fernet} {K : FernetKeys F} (db_path : pystr)
    (encryption_key : option pystr) (randomness : fnonce)
    (env : sqlite_env) (file : db_file) : started init_outcome :=
  let chosen : started (fkey * bool) :=
    match encryption_key with
    | Some (c :: text) =>
        match Utf8.encode (c :: text) with
        | Ok bytes =>
            match fernet_new bytes with
            | Some k => Started (k, false)
            | None => KeyRejected
            end
        | Raise _ => KeyIsNotText
        end
    | _ =>
        let key := fernet_generate_key randomness in
        match fernet_new key with
        | Some k => Started (k, true)
        | None => KeyRejected
        end
    end in
  match chosen with
  | Started (k, warned) =>
      match _init_db env file with
      | Ok d =>
          Started {| the_storage := {| db_path := db_path; cipher := k |};
                     the_db := d;
                     warned_auto_key := warned |}
      | Raise _ => DatabaseFailed
      end
  | KeyIsNotText => KeyIsNotText
  | KeyRejected => KeyRejected
  | DatabaseFailed => DatabaseFailed
  end.

(** generate_key.py: [generate_encryption_key()], [None] of Rocq where
    [decode] raises *)
Definition generate_encryption_key {F : Fernet} {K : FernetKeys F}
    (randomness : fnonce) : res pystr :=
  Utf8.decode (fernet_generate_key randomness).

End Startup.

(** ** Vocabulary of the properties *)

Module Vocabulary.
Import Storage BlinkoApi Bot.

(** The constraint [PRIMARY KEY (user_id, message_id, chat_id)]. *)
Definition note_primary_key (d : DB) : Prop :=
  NoDup (map (fun r => (n_user_id r, message_id r, Storage.chat_id r))
             (note_messages d)).

(** The rows of [note_messages] under one key, and of one user. *)
Definition notes_of (uid mid cid : Z) (d : DB) : list note_row :=
  filter (note_key uid mid cid) (note_messages d).

Definition notes_of_user (uid : Z) (d : DB) : list note_row :=
  filter (fun r => n_user_id r =? uid) (note_messages d).

Definition is_get (r : request) : bool :=
  match r_method r with GET => true | POST => false end.

Definition is_post (r : request) : bool :=
  match r_method r with POST => true | GET => false end.

(** The last character of a string. *)
Definition last_char (s : pystr) : option Z := hd_error (rev s).

(** The requests of one call of the client: at most one, of one method,
    sent from the session of the client. *)
Definition at_most_one (self : BlinkoAPI) (method : request -> bool)
    (rs : list request) : Prop :=
  (List.length rs <= 1)%nat /\
  forallb method rs = true /\
  Forall (fun r => r_session r = session self) rs.

End Vocabulary.

(** ** More of the sample instance *)

Module Scenario.
Import Storage BlinkoApi Bot Startup.

(** Keys of the sample cipher as text: "K" and "L". *)
Definition key_of_bytes (bytes : list Z) : option (@fkey Sample.cipher) :=
  match bytes with
  | [b] =>
      if b =? 75 then Some true else if b =? 76 then Some false else None
  | _ => None
  end.

Definition generated_key (_ : @fnonce Sample.cipher) : list Z := [75].

#[export] Instance keys : FernetKeys Sample.cipher := {|
  fernet_new := key_of_bytes;
  fernet_generate_key := generated_key
|}.

Definition faulty : sqlite_env :=
  {| sqlite_fault := true; current_timestamp := lit "2025-01-01 00:00:00" |}.

(** The file with the credential of user 42 and one correlation: the
    message 1000 of chat 5 reports note "17". *)
Definition db_note : DB :=
  snd (store_note_message Sample.store Sample.quiet Sample.db_42
         42 1000 5 (lit "17") 0).

Definition world_note : World :=
  {| db := db_note; requests := []; sent := [] |}.

(** A reply of user [uid] in chat 5 to the message [mid] of [author]. *)
Definition reply (uid mid author : Z) (words : pystr) : Update :=
  {| Bot.user_id := uid; user_username := Some (lit "ana");
     user_first_name := lit "Ana"; Bot.chat_id := 5; text := words;
     reply_to_message := Some (mid, author); args := []; bot_id := 999 |}.

(** A server that answers every request with status 200 and the JSON
    object [{"id": n}]. *)
Definition creating (n : Z) : transport :=
  Sample.answering 200 (Ok (VDict [(lit "id", VInt n)])).

End Scenario.

(* ================================================================== *)
(** * Part II. Properties                                               *)
(* ================================================================== *)

(** ** Booleans of the code and arithmetic *)

Ltac bool_to_Z :=
  repeat match goal with
  | H : (_ && _) = true |- _ => apply andb_true_iff in H; destruct H
  | H : (_ && _) = false |- _ => apply andb_false_iff in H; destruct H
  | H : (_ || _) = true |- _ => apply orb_true_iff in H; destruct H
  | H : (_ || _) = false |- _ => apply orb_false_iff in H; destruct H
  | H : negb _ = true |- _ => apply negb_true_iff in H
  | H : negb _ = false |- _ => apply negb_false_iff in H
  | H : (_ <=? _) = true |- _ => apply Z.leb_le in H
  | H : (_ <=? _) = false |- _ => apply Z.leb_gt in H
  | H : (_ <? _) = true |- _ => apply Z.ltb_lt in H
  | H : (_ <? _) = false |- _ => apply Z.ltb_ge in H
  | H : (_ >=? _) = true |- _ => rewrite Z.geb_leb in H
  | H : (_ >=? _) = false |- _ => rewrite Z.geb_leb in H
  | H : (_ =? _) = true |- _ => apply Z.eqb_eq in H
  | H : (_ =? _) = false |- _ => apply Z.eqb_neq in H
  end.

Ltac arith := bool_to_Z; Z.div_mod_to_equations; lia.

(** Split on the test of an [if] of the goal, or else of a hypothesis, and
    close the branches that arithmetic excludes. *)
Ltac decide_if :=
  let close E :=
    try discriminate;
    try (exfalso; unfold Utf8.surrogate, Utf8.cont in E; arith) in
  match goal with
  | |- context [if ?b then _ else _] =>
      let E := fresh "E" in destruct b eqn:E; close E
  | H : context [if ?b then _ else _] |- _ =>
      let E := fresh "E" in destruct b eqn:E; close E
  end.

Lemma Ok_inj {A : Type} (a b : A) : Ok a = Ok b -> a = b.
Proof. intros H. injection H. auto. Qed.

(** ** UTF-8 *)

Module Utf8Facts.
Import Utf8.

Lemma encode_cp_scalar (c : Z) :
  scalar c -> exists bs, encode_cp c = Ok bs.
Proof.
  intros [Hr Hs]. unfold encode_cp, surrogate.
  repeat decide_if; eauto.
Qed.

Lemma encode_cp_byte (c : Z) (bs : list Z) :
  encode_cp c = Ok bs -> Forall byte bs.
Proof.
  unfold encode_cp, byte, surrogate. intros H.
  repeat decide_if; apply Ok_inj in H; subst bs;
    repeat (apply Forall_cons; [arith|]); apply Forall_nil.
Qed.

Lemma decode_encode_cp (c : Z) (bs rest : list Z) :
  encode_cp c = Ok bs -> decode (bs ++ rest) = push c (decode rest).
Proof.
  unfold encode_cp, surrogate. intros H.
  repeat decide_if; apply Ok_inj in H; subst bs; cbn [app decode];
    repeat decide_if; f_equal; arith.
Qed.

Lemma encode_scalar (s : pystr) :
  Forall scalar s -> exists bs, encode s = Ok bs.
Proof.
  induction 1 as [|c s Hc _ [rest IH]]; cbn [encode].
  - eauto.
  - destruct (encode_cp_scalar c Hc) as [bs Hbs].
    rewrite Hbs, IH. cbn. eauto.
Qed.

Lemma encode_byte (s : pystr) (bs : list Z) :
  encode s = Ok bs -> Forall byte bs.
Proof.
  revert bs. induction s as [|c s IH]; cbn [encode]; intros bs H.
  - injection H as <-. constructor.
  - destruct (encode_cp c) as [b|] eqn:Hc; [|discriminate].
    destruct (encode s) as [r|]; [|discriminate].
    cbn in H. apply Ok_inj in H. subst bs.
    apply Forall_app. split; [eapply encode_cp_byte; eauto | auto].
Qed.

(** What [encode] produces, [decode] reads back. *)
Lemma decode_encode (s : pystr) (bs : list Z) :
  encode s = Ok bs -> decode bs = Ok s.
Proof.
  revert bs. induction s as [|c s IH]; cbn [encode]; intros bs H.
  - injection H as <-. reflexivity.
  - destruct (encode_cp c) as [b|] eqn:Hc; [|discriminate].
    destruct (encode s) as [r|]; [|discriminate].
    cbn in H. apply Ok_inj in H. subst bs.
    rewrite (decode_encode_cp c b r Hc), (IH r eq_refl). reflexivity.
Qed.

(** On ASCII both directions are the identity. *)
Lemma decode_ascii (bs : list Z) :
  Forall ascii_byte bs -> decode bs = Ok bs.
Proof.
  unfold ascii_byte.
  induction 1 as [|b bs Hb _ IH]; cbn [decode]; [reflexivity|].
  decide_if. rewrite IH. reflexivity.
Qed.

Lemma encode_ascii (s : pystr) :
  Forall ascii_byte s -> encode s = Ok s.
Proof.
  unfold ascii_byte.
  induction 1 as [|c s Hc _ IH]; cbn [encode]; [reflexivity|].
  unfold encode_cp. repeat decide_if. rewrite IH. reflexivity.
Qed.

End Utf8Facts.

(** ** The sample cipher keeps the contract *)

Module SampleFacts.
Import Utf8 Sample.

Lemma unletters_letters (p : list Z) :
  Forall byte p -> unletters (letters p) = Some p.
Proof.
  unfold byte.
  induction 1 as [|b p Hb _ IH]; cbn [letters unletters]; [reflexivity|].
  unfold letter. decide_if. rewrite IH. do 2 f_equal. arith.
Qed.

Lemma letters_ascii (p : list Z) :
  Forall byte p -> Forall ascii_byte (letters p).
Proof.
  unfold byte, ascii_byte.
  induction 1 as [|b p Hb _ IH]; cbn [letters]; [constructor|].
  repeat (apply Forall_cons; [arith|]). exact IH.
Qed.

Lemma cipher_laws : FernetLaws cipher.
Proof.
  split; cbn [fkey fnonce fernet_encrypt fernet_decrypt cipher];
    unfold encrypt, decrypt.
  - intros k n p Hp. rewrite Z.eqb_refl. apply unletters_letters, Hp.
  - intros k1 k2 n p Hk Hp.
    destruct k1, k2; try congruence; reflexivity.
  - intros k n p Hp. apply Forall_cons.
    + unfold ascii_byte. destruct k; cbn; lia.
    + apply letters_ascii, Hp.
Qed.

End SampleFacts.

(** ** storage.py: tables *)

Module TableFacts.
Import Storage.

Section Tables.
Context {A : Type}.
Variables (p : A -> bool).

Lemma find_filter_out (t : list A) (x : A) :
  p x = true ->
  find p (filter (fun r => negb (p r)) t ++ [x]) = Some x.
Proof.
  intros Hx. induction t as [|r t IH]; cbn.
  - rewrite Hx. reflexivity.
  - destruct (p r) eqn:Hr; cbn; [exact IH|]. rewrite Hr. exact IH.
Qed.

Lemma find_filter_none (t : list A) :
  find p (filter (fun r => negb (p r)) t) = None.
Proof.
  induction t as [|r t IH]; cbn; [reflexivity|].
  destruct (p r) eqn:Hr; cbn; [exact IH|]. rewrite Hr. exact IH.
Qed.

(** A lookup by another key does not see the replacement. *)
Lemma find_filter_other (q : A -> bool) (t : list A) (x : A) :
  (forall r, q r = true -> p r = false) ->
  q x = true ->
  find p (filter (fun r => negb (q r)) t ++ [x]) = find p t.
Proof.
  intros Hqp Hx. induction t as [|r t IH]; cbn.
  - rewrite (Hqp x Hx). reflexivity.
  - destruct (q r) eqn:Hr; cbn.
    + rewrite (Hqp r Hr). exact IH.
    + destruct (p r); [reflexivity | exact IH].
Qed.

Lemma filter_filter_out (t : list A) (x : A) :
  p x = true ->
  filter p (filter (fun r => negb (p r)) t ++ [x]) = [x].
Proof.
  intros Hx. induction t as [|r t IH]; cbn.
  - rewrite Hx. reflexivity.
  - destruct (p r) eqn:Hr; cbn; [exact IH|]. rewrite Hr. exact IH.
Qed.

End Tables.

Lemma map_filter_in (uid : Z) (q : user_row -> bool) (t : list user_row) :
  In uid (map user_id (filter q t)) -> In uid (map user_id t).
Proof.
  induction t as [|r t IH]; cbn; [auto|].
  destruct (q r); cbn; tauto.
Qed.

Lemma not_in_filter_out (uid : Z) (t : list user_row) :
  ~ In uid (map user_id (filter (fun r => negb (user_key uid r)) t)).
Proof.
  unfold user_key. induction t as [|r t IH]; cbn; [tauto|].
  destruct (user_id r =? uid) eqn:E; cbn; [exact IH|].
  intros [H|H]; [arith | exact (IH H)].
Qed.

Lemma NoDup_filter_keys (q : user_row -> bool) (t : list user_row) :
  NoDup (map user_id t) -> NoDup (map user_id (filter q t)).
Proof.
  induction t as [|r t IH]; cbn; [auto|].
  intros H. inversion H as [|x l Hin Hnd]; subst.
  destruct (q r); cbn; [|auto].
  constructor; [|auto]. intros Hc. apply Hin. eapply map_filter_in, Hc.
Qed.

Lemma NoDup_snoc (l : list Z) (x : Z) :
  NoDup l -> ~ In x l -> NoDup (l ++ [x]).
Proof.
  intros Hl Hx. induction Hl as [|y l Hy Hl IH]; cbn.
  - constructor; [tauto | constructor].
  - constructor.
    + rewrite in_app_iff. cbn. intros [H|[H|[]]]; [tauto|].
      subst. apply Hx. now left.
    + apply IH. intros H. apply Hx. now right.
Qed.

(** Under the primary key, deleting the rows of a user that has one makes
    the table one row shorter. *)
Lemma length_filter_out (uid : Z) (t : list user_row) :
  NoDup (map user_id t) ->
  In uid (map user_id t) ->
  S (List.length (filter (fun r => negb (user_key uid r)) t)) = List.length t.
Proof.
  unfold user_key. induction t as [|r t IH]; cbn; [tauto|].
  intros Hnd Hin. inversion Hnd as [|x l Hnot Hnd']; subst.
  destruct (user_id r =? uid) eqn:E; cbn.
  - f_equal. apply Z.eqb_eq in E. rewrite E in Hnot.
    clear IH Hin Hnd. induction t as [|r' t IH]; cbn; [reflexivity|].
    cbn in Hnot. destruct (user_id r' =? uid) eqn:E'; cbn.
    + exfalso. apply Hnot. left. arith.
    + f_equal. apply IH. tauto.
      inversion Hnd'; auto.
  - f_equal. apply IH; [auto|]. destruct Hin as [H|H]; [arith | auto].
Qed.

Lemma length_filter_le (q : user_row -> bool) (t : list user_row) :
  (List.length (filter q t) <= List.length t)%nat.
Proof. induction t as [|r t IH]; cbn; [lia|]. destruct (q r); cbn; lia. Qed.

Lemma find_some_in (uid : Z) (t : list user_row) (r : user_row) :
  find (user_key uid) t = Some r -> In uid (map user_id t).
Proof.
  intros H. apply find_some in H as [Hin Hk]. unfold user_key in Hk.
  apply Z.eqb_eq in Hk. subst. apply in_map, Hin.
Qed.

End TableFacts.

(** ** storage.py: the credential store *)

Module StorageFacts.
Import Utf8 Utf8Facts Storage TableFacts.

Section WithCipher.
Context {F : Fernet}.

Lemma transaction_quiet {A : Type} (env : sqlite_env) (body : res A) :
  sqlite_fault env = false -> transaction env body = body.
Proof. unfold transaction. intros ->. reflexivity. Qed.

Lemma transaction_fault {A : Type} (env : sqlite_env) (body : res A) :
  sqlite_fault env = true -> transaction env body = Raise SqliteError.
Proof. unfold transaction. intros ->. reflexivity. Qed.

(** [store_user_token] by cases: it writes when the token encrypts and
    SQLite does not fault, and otherwise leaves the file as it was. *)
Lemma store_user_token_cases (self : UserStorage) (env : sqlite_env)
    (nonce : fnonce) (db : DB) (uid : Z) (uname token : pystr)
    (url : option pystr) :
  (exists ct,
      encrypt_token (cipher self) nonce token = Ok ct /\
      sqlite_fault env = false /\
      store_user_token self env nonce db uid uname token url =
      (true,
       {| user_tokens :=
            insert_or_replace_user_tokens (current_timestamp env)
              uid uname ct url (user_tokens db);
          note_messages := note_messages db |}))
  \/ store_user_token self env nonce db uid uname token url = (false, db).
Proof.
  unfold store_user_token.
  destruct (encrypt_token (cipher self) nonce token) as [ct|e] eqn:Hct;
    cbn [rbind]; [|now right].
  unfold transaction. destruct (sqlite_fault env) eqn:Hf; [now right|].
  left. exists ct. auto.
Qed.

Lemma get_user_token_absent (self : UserStorage) (env : sqlite_env)
    (db : DB) (uid : Z) :
  find (user_key uid) (user_tokens db) = None ->
  get_user_token self env db uid = None.
Proof.
  intros H. unfold get_user_token, transaction. rewrite H.
  destruct (sqlite_fault env); reflexivity.
Qed.

Lemma get_user_token_present (self : UserStorage) (env : sqlite_env)
    (db : DB) (uid : Z) (row : user_row) :
  sqlite_fault env = false ->
  find (user_key uid) (user_tokens db) = Some row ->
  get_user_token self env db uid =
  match decrypt_token (cipher self) (encrypted_token row) with
  | Ok token => Some token
  | Raise _ => None
  end.
Proof.
  intros Hf H. unfold get_user_token. rewrite transaction_quiet, H by exact Hf.
  destruct (decrypt_token (cipher self) (encrypted_token row)); reflexivity.
Qed.

(** [remove_user_token] answers [True] whenever SQLite does not fault. *)
Lemma remove_user_token_result (self : UserStorage) (env : sqlite_env)
    (db : DB) (uid : Z) :
  remove_user_token self env db uid =
  if sqlite_fault env then (false, db)
  else (true,
        {| user_tokens :=
             filter (fun r => negb (user_key uid r)) (user_tokens db);
           note_messages := note_messages db |}).
Proof.
  unfold remove_user_token, transaction.
  destruct (sqlite_fault env); reflexivity.
Qed.

(** After a removal that answered [True] the user has no credential. *)
Lemma get_after_remove (self : UserStorage) (env env' : sqlite_env)
    (db : DB) (uid : Z) :
  fst (remove_user_token self env db uid) = true ->
  get_user_token self env' (snd (remove_user_token self env db uid)) uid
  = None.
Proof.
  rewrite remove_user_token_result.
  destruct (sqlite_fault env); cbn [fst snd]; [discriminate|]. intros _.
  apply get_user_token_absent. cbn [user_tokens]. apply find_filter_none.
Qed.

Lemma primary_key_insert (now : pystr) (uid : Z) (uname ct : pystr)
    (url : option pystr) (t : list user_row) :
  NoDup (map user_id t) ->
  NoDup (map user_id
           (insert_or_replace_user_tokens now uid uname ct url t)).
Proof.
  intros H. unfold insert_or_replace_user_tokens.
  rewrite map_app. cbn [map user_id].
  apply NoDup_snoc.
  - apply NoDup_filter_keys, H.
  - apply not_in_filter_out.
Qed.

Lemma primary_key_empty : primary_key empty_db.
Proof. constructor. Qed.

Lemma primary_key_remove (self : UserStorage) (env : sqlite_env)
    (db : DB) (uid : Z) :
  primary_key db -> primary_key (snd (remove_user_token self env db uid)).
Proof.
  intros H. rewrite remove_user_token_result.
  destruct (sqlite_fault env); cbn [snd]; [exact H|].
  apply NoDup_filter_keys, H.
Qed.

Lemma rows_of_insert_other (now : pystr) (uid uid' : Z) (uname ct : pystr)
    (url : option pystr) (t : list user_row) :
  uid' <> uid ->
  filter (user_key uid')
    (insert_or_replace_user_tokens now uid uname ct url t)
  = filter (user_key uid') t.
Proof.
  intros Hne. unfold insert_or_replace_user_tokens, user_key.
  rewrite filter_app. cbn [filter user_id].
  destruct (uid =? uid') eqn:E; [arith|]. rewrite app_nil_r.
  induction t as [|r t IH]; cbn; [reflexivity|].
  destruct (user_id r =? uid) eqn:E1; cbn.
  - destruct (user_id r =? uid') eqn:E2; [arith | exact IH].
  - destruct (user_id r =? uid'); [f_equal|]; exact IH.
Qed.

Section WithLaws.
Context {L : FernetLaws F}.

Lemma encrypt_token_scalar (k : fkey) (n : fnonce) (token : pystr) :
  Forall scalar token ->
  exists bs,
    encode token = Ok bs /\ Forall byte bs /\
    encrypt_token k n token = Ok (fernet_encrypt k n bs).
Proof.
  intros Hs. destruct (encode_scalar token Hs) as [bs Hbs].
  pose proof (encode_byte token bs Hbs) as Hb.
  exists bs. repeat split; auto.
  unfold encrypt_token. rewrite Hbs. cbn [rbind].
  apply decode_ascii, token_ascii, Hb.
Qed.

Lemma decrypt_token_same_key (k : fkey) (n : fnonce) (token : pystr)
    (bs : list Z) :
  encode token = Ok bs ->
  decrypt_token k (fernet_encrypt k n bs) = Ok token.
Proof.
  intros Hbs. pose proof (encode_byte token bs Hbs) as Hb.
  unfold decrypt_token.
  rewrite (encode_ascii _ (token_ascii k n bs Hb)). cbn [rbind].
  rewrite (decrypt_encrypt k n bs Hb). cbn [rbind].
  apply decode_encode, Hbs.
Qed.

Lemma decrypt_token_other_key (k k2 : fkey) (n : fnonce) (bs : list Z) :
  k <> k2 -> Forall byte bs ->
  decrypt_token k2 (fernet_encrypt k n bs) = Raise InvalidToken.
Proof.
  intros Hk Hb. unfold decrypt_token.
  rewrite (encode_ascii _ (token_ascii k n bs Hb)). cbn [rbind].
  rewrite (decrypt_other_key k k2 n bs Hk Hb). reflexivity.
Qed.

End WithLaws.
End WithCipher.

End StorageFacts.

(** ** blinko_api.py: the remote note client *)

Module ClientFacts.
Import BlinkoApi.

Lemma strip_all_space (s : pystr) :
  Forall (fun c => isspace c = true) s -> strip s = [].
Proof.
  intros H. unfold strip, lstrip.
  assert (Hd : dropwhile isspace s = []).
  { induction H as [|c s Hc _ IH]; cbn; [reflexivity|]. rewrite Hc. exact IH. }
  rewrite Hd. reflexivity.
Qed.

Lemma strip_nil : strip [] = [].
Proof. reflexivity. Qed.

(** The guard of [create_note] and [update_note]. *)
Lemma guard_blank (content : pystr) :
  strip content = [] ->
  negb (PyStr.truthy content) || negb (PyStr.truthy (strip content)) = true.
Proof. intros ->. apply orb_true_r. Qed.

Lemma guard_not_blank (content : pystr) :
  strip content <> [] ->
  negb (PyStr.truthy content) || negb (PyStr.truthy (strip content)) = false.
Proof.
  intros H. destruct content as [|c s]; [contradiction H; reflexivity|].
  destruct (strip (c :: s)); [contradiction H; reflexivity | reflexivity].
Qed.

Section WithRepr.
Context {R : PyRepr}.

Lemma classify_on_exception (m1 m2 : pystr) (e : exn) :
  classify (on_exception m1 m2 e) =
  Some (if is_timeout e then TimeoutFailure
        else if is_connection_error e then ConnectionFailure
        else UnexpectedError).
Proof.
  unfold on_exception.
  destruct (is_timeout e); [reflexivity|].
  destruct (is_connection_error e); reflexivity.
Qed.

Lemma classify_unauthorized (m : pystr) :
  classify (unauthorized_failure m) = Some Unauthorized.
Proof. reflexivity. Qed.

Lemma classify_api_error (status : Z) :
  classify (api_error_failure status) = Some (ApiError status).
Proof. reflexivity. Qed.

(** [create_note] on content that passes the guard, by the answer of the
    transport. *)
Lemma create_note_sent (self : BlinkoAPI) (net : transport)
    (token content : pystr) (note_type : Z) :
  strip content <> [] ->
  create_note self net token content note_type =
  (let req := upsert_request self token
                {| nd_id := None; nd_content := strip content;
                   nd_type := note_type |} in
   match net req with
   | Ok response =>
       if status_code response =? 401 then
         unauthorized_failure
           (lit "Invalid or expired token. Please reconfigure with /configure")
       else if status_code response >=? 400 then
         api_error_failure (status_code response)
       else
         match json response with
         | Ok (VDict o) =>
             success_result (VDict o)
               match lookup o (lit "id") with Some v => v | None => VNone end
         | Ok _ =>
             on_exception
               (lit "Request timed out. Please try again.")
               (lit "Failed to connect to Blinko server. Please check your configuration.")
               AttributeError
         | Raise e =>
             on_exception
               (lit "Request timed out. Please try again.")
               (lit "Failed to connect to Blinko server. Please check your configuration.")
               e
         end
   | Raise e =>
       on_exception
         (lit "Request timed out. Please try again.")
         (lit "Failed to connect to Blinko server. Please check your configuration.")
         e
   end,
   [upsert_request self token
      {| nd_id := None; nd_content := strip content;
         nd_type := note_type |}]).
Proof.
  intros H. unfold create_note. rewrite (guard_not_blank content H).
  cbv zeta. f_equal.
  destruct (net _) as [response|e]; cbn [rbind]; [|reflexivity].
  destruct (status_code response =? 401); [reflexivity|].
  destruct (status_code response >=? 400); [reflexivity|].
  destruct (json response) as [v|e]; cbn [rbind]; [|reflexivity].
  destruct v; reflexivity.
Qed.

End WithRepr.
End ClientFacts.

(** ** bot.py: the command handlers *)

Module BotFacts.
Import Storage BlinkoApi Bot ClientFacts.

(** Unfold the handler monad, keeping the calls of the store and of the
    client folded. *)
Ltac run :=
  unfold bind, ret, lift, read_db, write_db, call_api, reply_text;
  cbn [fst snd db requests sent].

(** Split on the innermost scrutinee of the goal. *)
Ltac innermost x :=
  lazymatch x with
  | context [match ?y with _ => _ end] => innermost y
  | _ => destruct x eqn:?
  end.

Ltac branch :=
  match goal with
  | |- context [match ?x with _ => _ end] => innermost x
  end.

Lemma dropwhile_idem (p : Z -> bool) (s : pystr) :
  dropwhile p (dropwhile p s) = dropwhile p s.
Proof.
  induction s as [|c s IH]; cbn; [reflexivity|].
  destruct (p c) eqn:E; [exact IH|]. cbn. rewrite E. reflexivity.
Qed.

Lemma dropwhile_head (p : Z -> bool) (s t : pystr) (c : Z) :
  dropwhile p s = c :: t -> p c = false.
Proof.
  induction s as [|x s IH]; cbn; [discriminate|].
  destruct (p x) eqn:E; [exact IH|]. intros H. injection H as -> _. exact E.
Qed.

Lemma dropwhile_last (p : Z -> bool) (l : pystr) (c : Z) :
  p c = false -> exists u, dropwhile p (l ++ [c]) = u ++ [c].
Proof.
  intros Hc. induction l as [|x l IH]; cbn.
  - rewrite Hc. exists []. reflexivity.
  - destruct (p x); [exact IH|]. exists (x :: l). reflexivity.
Qed.

(** Trimming twice is trimming once. *)
Lemma strip_idem (s : pystr) : strip (strip s) = strip s.
Proof.
  unfold strip, lstrip. destruct (dropwhile isspace s) as [|c t] eqn:E.
  - reflexivity.
  - pose proof (dropwhile_head _ _ _ _ E) as Hc.
    unfold rstrip at 2 3. cbn [rev].
    destruct (dropwhile_last isspace (rev t) c Hc) as [u Hu].
    rewrite Hu, rev_app_distr. cbn [rev app dropwhile]. rewrite Hc.
    change (c :: rev u) with (rev [c] ++ rev u).
    rewrite <- rev_app_distr, <- Hu. unfold rstrip.
    rewrite rev_involutive, dropwhile_idem. reflexivity.
Qed.

Lemma digits_acc (fuel : nat) (n : Z) (acc : pystr) :
  acc <> [] -> digits fuel n acc <> [].
Proof.
  revert n acc. induction fuel as [|fuel IH]; intros n acc H; cbn [digits].
  - exact H.
  - cbv zeta. destruct (n <? 10); [discriminate|]. apply IH. discriminate.
Qed.

Lemma of_int_nonempty (n : Z) : PyStr.of_int n <> [].
Proof.
  unfold PyStr.of_int. destruct (n <? 0); [discriminate|].
  cbn [digits]. cbv zeta. destruct (n <? 10); [discriminate|].
  apply digits_acc. discriminate.
Qed.

(** The text of a value that counts as true is not empty. *)
Lemma str_of_true_nonempty {R : PyRepr} (v : pyval) :
  truth v = true -> str v <> [].
Proof.
  destruct v as [|b|n|f|s|items|items]; cbn [truth str]; intros H.
  - discriminate.
  - subst b. discriminate.
  - apply of_int_nonempty.
  - discriminate.
  - destruct s; [discriminate H | discriminate].
  - discriminate.
  - discriminate.
Qed.

Section WithCipher.
Context {F : Fernet}.

Lemma store_note_message_result (self : UserStorage) (env : sqlite_env)
    (d : DB) (uid mid cid : Z) (nid : pystr) (ntype : Z) :
  store_note_message self env d uid mid cid nid ntype =
  if sqlite_fault env then (false, d)
  else (true,
        {| user_tokens := user_tokens d;
           note_messages :=
             insert_or_replace_note_messages (current_timestamp env)
               uid mid cid nid ntype (note_messages d) |}).
Proof.
  unfold store_note_message, transaction.
  destruct (sqlite_fault env); reflexivity.
Qed.

Lemma store_note_message_nonempty (self : UserStorage) (env : sqlite_env)
    (d : DB) (uid mid cid : Z) (nid : pystr) (ntype : Z) :
  note_ids_nonempty d -> nid <> [] ->
  note_ids_nonempty
    (snd (store_note_message self env d uid mid cid nid ntype)).
Proof.
  intros Hd Hn. rewrite store_note_message_result.
  destruct (sqlite_fault env); cbn [snd]; [exact Hd|].
  unfold note_ids_nonempty in *. cbn [note_messages].
  unfold insert_or_replace_note_messages. apply Forall_app. split.
  - rewrite Forall_forall in *. intros r Hr.
    apply filter_In in Hr as [Hr _]. auto.
  - apply Forall_cons; [exact Hn | apply Forall_nil].
Qed.

Lemma get_note_from_reply_nonempty (self : UserStorage) (env : sqlite_env)
    (d : DB) (uid mid cid : Z) (nid : pystr) (ntype : Z) :
  note_ids_nonempty d ->
  get_note_from_reply self env d uid mid cid = Some (nid, ntype) ->
  nid <> [].
Proof.
  unfold get_note_from_reply, transaction, note_ids_nonempty.
  intros Hd. destruct (sqlite_fault env); [discriminate|].
  destruct (find _ _) as [row|] eqn:Hf; [|discriminate].
  intros H. injection H as <- _.
  apply find_some in Hf as [Hin _].
  rewrite Forall_forall in Hd. auto.
Qed.

(** Each write of the store keeps the file consistent. *)
Lemma store_user_token_consistent (self : UserStorage) (env : sqlite_env)
    (nonce : fnonce) (d d' : DB) (uid : Z) (uname token : pystr)
    (url : option pystr) (b : bool) :
  store_user_token self env nonce d uid uname token url = (b, d') ->
  consistent d -> consistent d'.
Proof.
  intros H [Hpk Hn].
  destruct (StorageFacts.store_user_token_cases
              self env nonce d uid uname token url)
    as [(ct & _ & _ & Hst) | Hst];
    rewrite Hst in H; injection H as _ <-; [|split; assumption].
  split; [apply StorageFacts.primary_key_insert, Hpk | exact Hn].
Qed.

Lemma remove_user_token_consistent (self : UserStorage) (env : sqlite_env)
    (d d' : DB) (uid : Z) (b : bool) :
  remove_user_token self env d uid = (b, d') ->
  consistent d -> consistent d'.
Proof.
  intros H [Hpk Hn].
  pose proof (StorageFacts.primary_key_remove self env d uid Hpk) as Hpk'.
  rewrite StorageFacts.remove_user_token_result in H, Hpk'.
  destruct (sqlite_fault env); injection H as _ <-; split; assumption.
Qed.

Lemma store_note_message_consistent (self : UserStorage) (env : sqlite_env)
    (d d' : DB) (uid mid cid : Z) (nid : pystr) (ntype : Z) (b : bool) :
  store_note_message self env d uid mid cid nid ntype = (b, d') ->
  nid <> [] -> consistent d -> consistent d'.
Proof.
  intros H Hnid [Hpk Hn].
  pose proof (store_note_message_nonempty self env d uid mid cid nid ntype
                Hn Hnid) as Hn'.
  rewrite H in Hn'. cbn [snd] in Hn'. split; [|exact Hn'].
  rewrite store_note_message_result in H.
  destruct (sqlite_fault env); injection H as _ <-; exact Hpk.
Qed.

Context {R : PyRepr}.

(** What [_create_note] does to the file: nothing, or one call of
    [store_note_message], made after a [create_note] whose dictionary
    is a success with a true [note_id], with the text of that value. *)
Lemma _create_note_db (self : BlinkoTelegramBot) (e : env)
    (update : Update) (note_type : Z) (type_name : pystr) (w : World) :
  db (snd (_create_note self e update note_type type_name w)) = db w \/
  exists (token : pystr) (success v : pyval) (mid : Z),
    let d := fst (create_note (blinko_api self) (net e) token
                    (strip (join (lit " ") (args update))) note_type) in
    get_user_token (storage self) (sql e 0%nat) (db w) (user_id update)
    = Some token /\
    lookup d (lit "success") = Some success /\ truth success = true /\
    lookup d (lit "note_id") = Some v /\ truth v = true /\
    db (snd (_create_note self e update note_type type_name w)) =
    snd (store_note_message (storage self) (sql e 1%nat) (db w)
           (user_id update) mid (chat_id update) (str v) note_type).
Proof.
  unfold _create_note. run. unfold item, contains.
  repeat (branch; cbn [snd db]); subst;
    try (left; reflexivity); try discriminate.
  all: right; do 4 eexists; cbv zeta;
    repeat match goal with
           | H : Ok _ = Ok _ |- _ => apply Ok_inj in H; subst
           end;
    (split; [reflexivity|]);
    (split; [eassumption|]); (split; [eassumption|]);
    (split; [eassumption|]); (split; [eassumption|]);
    match goal with
    | H : store_note_message _ _ _ _ _ _ _ _ = _ |- _ =>
        exact (eq_sym (f_equal snd H))
    end.
Qed.

(** Every handler keeps the file consistent. *)
Lemma handle_consistent (self : BlinkoTelegramBot) (h : handler)
    (e : env) (update : Update) (w : World) :
  consistent (db w) -> consistent (db (snd (handle self h e update w))).
Proof.
  intros Hc.
  destruct h; cbn [handle];
    unfold start_command, help_command, configure_command, note_command,
      blinko_command, _create_note, status_command, reset_command,
      handle_reply_update;
    run; unfold item, contains;
    repeat (branch; cbn [snd db]); subst; try exact Hc; try discriminate;
    repeat match goal with
           | H : Ok _ = Ok _ |- _ => apply Ok_inj in H; subst
           end.
  all: try (eapply store_user_token_consistent; eassumption).
  all: try (eapply remove_user_token_consistent; eassumption).
  all: eapply store_note_message_consistent; [eassumption| |exact Hc].
  all: try (apply str_of_true_nonempty; assumption).
  all: destruct Hc as [_ Hn];
    eapply get_note_from_reply_nonempty; eassumption.
Qed.

Lemma reachable_consistent (self : BlinkoTelegramBot) (w : World) :
  reachable self w -> consistent (db w).
Proof.
  induction 1 as [|w h e update _ IH].
  - split; [apply StorageFacts.primary_key_empty | apply Forall_nil].
  - apply handle_consistent, IH.
Qed.

End WithCipher.
End BotFacts.

(** ** Claims on the credential store *)

Module CredentialStore.
Import Utf8 Utf8Facts Storage TableFacts StorageFacts.

(** C1, as stated, fails.  The claim: when the stored ciphertext of a user
    cannot be decrypted, [get_user_token] does not give what it gives when
    no credential is stored.  With the sample cipher, the row of user 7 in
    [db_unreadable] does not decrypt, and [get_user_token] answers [None],
    as it does on the empty file. *)
Lemma get_user_token_hides_decryption_failure :
  ~ (forall (F : Fernet) (self : UserStorage) (env : sqlite_env) (db : DB)
            (uid : Z) (row : user_row),
        find (user_key uid) (user_tokens db) = Some row ->
        (exists e,
            decrypt_token (cipher self) (encrypted_token row) = Raise e) ->
        get_user_token self env db uid
        <> get_user_token self env empty_db uid).
Proof.
  intros H.
  refine (H Sample.cipher Sample.store Sample.quiet Sample.db_unreadable 7
            _ eq_refl _ _).
  - exists InvalidToken. reflexivity.
  - reflexivity.
Qed.

(** C1, amended.  When the row of a user holds ciphertext that does not
    decrypt under the key of the store (the text does not encode, the
    cipher rejects it, or the plaintext is not UTF-8), [get_user_token]
    catches the exception and answers [None]: the same answer as for a
    user with no row. *)
Theorem get_user_token_undecryptable
    {F : Fernet} (self : UserStorage) (env : sqlite_env) (db : DB)
    (uid : Z) (row : user_row) (e : exn) :
  find (user_key uid) (user_tokens db) = Some row ->
  decrypt_token (cipher self) (encrypted_token row) = Raise e ->
  get_user_token self env db uid = None /\
  forall db0 : DB,
    find (user_key uid) (user_tokens db0) = None ->
    get_user_token self env db0 uid = get_user_token self env db uid.
Proof.
  intros Hrow Hdec.
  assert (Hnone : get_user_token self env db uid = None).
  { unfold get_user_token, transaction. rewrite Hrow, Hdec.
    destruct (sqlite_fault env); reflexivity. }
  split; [exact Hnone|].
  intros db0 H0. rewrite Hnone. apply get_user_token_absent, H0.
Qed.

Lemma get_user_token_undecryptable_witness :
  get_user_token Sample.store Sample.quiet Sample.db_unreadable 7 = None /\
  forall db0 : DB,
    find (user_key 7) (user_tokens db0) = None ->
    get_user_token Sample.store Sample.quiet db0 7
    = get_user_token Sample.store Sample.quiet Sample.db_unreadable 7.
Proof.
  refine (get_user_token_undecryptable Sample.store Sample.quiet
            Sample.db_unreadable 7 _ InvalidToken _ _);
    reflexivity.
Defined.

(** C2, the code at the failing input.  User 42 has no row in the empty
    file; [remove_user_token] answers [True] all the same, and
    [reset_command] then tells the user that the configuration was
    removed, not the text of its other branch ("Failed to remove
    configuration or no configuration found"). *)
Theorem remove_user_token_absent_user :
  find (user_key 42) (user_tokens empty_db) = None /\
  remove_user_token Sample.store Sample.quiet empty_db 42 = (true, empty_db) /\
  Bot.reset_command Sample.bot
    (Sample.calm (Sample.answering 200 (Ok VNone)) 1000)
    (Sample.command 42 []) Sample.blank_world
  = (Ok tt,
     {| Bot.db := empty_db; Bot.requests := [];
        Bot.sent := [Bot.ConfigurationRemoved] |}).
Proof. repeat split. Qed.





End CredentialStore.

(** ** Claims on the remote note client *)

Module RemoteClient.
Import BlinkoApi ClientFacts.



(** C4.  For every token, every note type (and note id) and every content
    that is empty after trimming, which covers the empty string and the
    strings of whitespace alone, [create_note] and [update_note] return
    the validation failure and send no request. *)
Theorem blank_content_is_rejected
    {R : PyRepr} (self : BlinkoAPI) (net : transport)
    (token note_id content : pystr) (note_type : Z) :
  strip content = [] ->
  create_note self net token content note_type = (validation_failure, []) /\
  update_note self net token note_id content note_type
  = (validation_failure, []) /\
  classify validation_failure = Some ValidationError.
Proof.
  intros H. unfold create_note, update_note.
  rewrite (guard_blank content H). repeat split.
Qed.

Lemma blank_content_is_rejected_witness :
  create_note (R := Sample.repr) Sample.api (Sample.answering 200 (Ok VNone))
    (lit "secret-token-0001") (lit "   ") 0
  = (validation_failure, []) /\
  update_note (R := Sample.repr) Sample.api (Sample.answering 200 (Ok VNone))
    (lit "secret-token-0001") (lit "17") (lit "   ") 0
  = (validation_failure, []) /\
  classify validation_failure = Some ValidationError.
Proof.
  apply (blank_content_is_rejected (R := Sample.repr) Sample.api
           (Sample.answering 200 (Ok VNone))
           (lit "secret-token-0001") (lit "17") (lit "   ") 0).
  reflexivity.
Defined.

(** C5.  For every content that is not empty after trimming,
    [create_note] sends exactly one request, and the dictionary it
    returns is one variant of the taxonomy, fixed by what the transport
    did with that request: status 401 gives [Unauthorized]; any other
    status of 400 or more gives [ApiError] with that status; an exception
    that is a [Timeout] gives [TimeoutFailure]; a [ConnectionError] that
    is no [Timeout] gives [ConnectionFailure]; a 2xx status whose body
    parses to a JSON object gives [Success] with the [id] of the object
    ([None] when the object has none). *)
Theorem create_note_outcome
    {R : PyRepr} (self : BlinkoAPI) (net : transport)
    (token content : pystr) (note_type : Z) :
  strip content <> [] ->
  let req := upsert_request self token
               {| nd_id := None; nd_content := strip content;
                  nd_type := note_type |} in
  let d := fst (create_note self net token content note_type) in
  snd (create_note self net token content note_type) = [req] /\
  (exists r : Result, classify d = Some r) /\
  (forall resp : response,
      net req = Ok resp -> status_code resp = 401 ->
      classify d = Some Unauthorized) /\
  (forall resp : response,
      net req = Ok resp -> status_code resp >= 400 ->
      status_code resp <> 401 ->
      classify d = Some (ApiError (status_code resp))) /\
  (forall e : exn,
      net req = Raise e -> is_timeout e = true ->
      classify d = Some TimeoutFailure) /\
  (forall e : exn,
      net req = Raise e -> is_timeout e = false ->
      is_connection_error e = true ->
      classify d = Some ConnectionFailure) /\
  (forall (resp : response) (o : pydict),
      net req = Ok resp -> 200 <= status_code resp < 300 ->
      json resp = Ok (VDict o) ->
      classify d =
      Some (Success
              match lookup o (lit "id") with Some v => v | None => VNone end)).
Proof.
  intros H req d. subst d. rewrite (create_note_sent _ _ _ _ _ H).
  fold req. cbn [fst snd]. split; [reflexivity|]. split; [|repeat split].
  - destruct (net req) as [resp|e].
    + destruct (status_code resp =? 401); [eexists; reflexivity|].
      destruct (status_code resp >=? 400); [eexists; reflexivity|].
      destruct (json resp) as [v|e];
        [destruct v|]; rewrite ?classify_on_exception; eexists; reflexivity.
    + rewrite classify_on_exception. eexists; reflexivity.
  - intros resp -> Hs. apply Z.eqb_eq in Hs. rewrite Hs. reflexivity.
  - intros resp -> Hge Hne.
    destruct (status_code resp =? 401) eqn:E1; [arith|].
    destruct (status_code resp >=? 400) eqn:E2; [reflexivity | arith].
  - intros e -> He. rewrite classify_on_exception, He. reflexivity.
  - intros e -> He Hc. rewrite classify_on_exception, He, Hc. reflexivity.
  - intros resp o -> Hs Hj.
    destruct (status_code resp =? 401) eqn:E1; [arith|].
    destruct (status_code resp >=? 400) eqn:E2; [arith|].
    rewrite Hj. reflexivity.
Qed.

Lemma create_note_outcome_witness :
  strip (lit "Buy milk") <> [] /\
  classify
    (fst (create_note (R := Sample.repr) Sample.api
            (Sample.answering 500 (Raise JSONDecodeError))
            (lit "secret-token-0001") (lit "Buy milk") 0))
  = Some (ApiError 500).
Proof.
  assert (H : strip (lit "Buy milk") <> []) by (vm_compute; discriminate).
  split; [exact H|].
  destruct (create_note_outcome (R := Sample.repr) Sample.api
              (Sample.answering 500 (Raise JSONDecodeError))
              (lit "secret-token-0001") (lit "Buy milk") 0 H)
    as (_ & _ & _ & Hapi & _).
  apply (Hapi {| status_code := 500; json := Raise JSONDecodeError |});
    [reflexivity | cbn; lia | cbn; lia].
Defined.

(** C6.  For every token, [test_token] sends one request, and it returns
    the [Unauthorized] failure exactly when the transport answered that
    request with status 401; with any other status (2xx and 403 among
    them) it returns a success, the credential is accepted. *)
Theorem test_token_unauthorized_iff_401
    {R : PyRepr} (self : BlinkoAPI) (net : transport) (token : pystr) :
  let req := probe_request self token in
  let d := fst (test_token self net token) in
  snd (test_token self net token) = [req] /\
  (classify d = Some Unauthorized <->
   exists resp : response, net req = Ok resp /\ status_code resp = 401) /\
  (forall resp : response,
      net req = Ok resp -> status_code resp <> 401 ->
      lookup d (lit "success") = Some (VBool true) /\
      classify d = Some Accepted).
Proof.
  cbv zeta. unfold test_token. cbn [fst snd].
  split; [reflexivity|].
  destruct (net (probe_request self token)) as [resp|e]; cbn [rbind].
  - destruct (status_code resp =? 401) eqn:E1.
    + split.
      * split; [|reflexivity]. intros _. exists resp. split; [reflexivity|arith].
      * intros resp' Hr Hne. apply Ok_inj in Hr. subst resp'. arith.
    + destruct ((status_code resp =? 200) || (status_code resp =? 403));
        (split;
         [ split;
           [ intros Hc; vm_compute in Hc; discriminate Hc
           | intros (resp' & Hr & Hs); apply Ok_inj in Hr; subst resp'; arith ]
         | intros resp' _ _; split; reflexivity ]).
  - rewrite classify_on_exception. split.
    + split.
      * destruct (is_timeout e); [discriminate|].
        destruct (is_connection_error e); discriminate.
      * intros (resp & Hr & _). discriminate.
    + intros resp Hr. discriminate.
Qed.

End RemoteClient.

(** ** Claims on the command handlers *)

Module Commands.
Import Storage BlinkoApi Bot ClientFacts BotFacts.

(** C9.  When the words of [/configure], joined by spaces and trimmed,
    are fewer than 10 characters, [configure_command] sends no request to
    the remote service and leaves the file as it was; all it does is
    answer with the usage text (no word given) or with the "too short"
    text, which it does whenever at least one word was given and Telegram
    takes the message. *)
Theorem short_token_is_rejected
    {F : Fernet} {R : PyRepr} (self : BlinkoTelegramBot) (e : env)
    (update : Update) (w : World) :
  len (strip (join (lit " ") (args update))) < 10 ->
  let w' := snd (configure_command self e update w) in
  requests w' = requests w /\
  db w' = db w /\
  (sent w' = sent w \/ sent w' = sent w ++ [ConfigureUsage]
   \/ sent w' = sent w ++ [TokenTooShort]) /\
  (forall mid : Z,
      args update <> [] -> telegram e TokenTooShort = Ok mid ->
      configure_command self e update w =
      (Ok tt,
       {| db := db w; requests := requests w;
          sent := sent w ++ [TokenTooShort] |})).
Proof.
  intros Hlen. cbv zeta. unfold configure_command.
  destruct (args update) as [|word words] eqn:Ha.
  - run. destruct (telegram e ConfigureUsage); cbn [snd db requests sent];
      repeat split; auto; congruence.
  - apply Z.ltb_lt in Hlen. rewrite Hlen. run.
    destruct (telegram e TokenTooShort) as [mid0|x];
      cbn [snd db requests sent]; repeat split; auto; congruence.
Qed.

Lemma short_token_is_rejected_witness :
  len (strip (join (lit " ") [lit "short"])) < 10 /\
  configure_command (R := Sample.repr) Sample.bot
    (Sample.calm (Sample.answering 200 (Ok VNone)) 1000)
    (Sample.command 42 [lit "short"]) Sample.blank_world
  = (Ok tt,
     {| db := empty_db; requests := [];
        sent := [TokenTooShort] |}).
Proof.
  assert (H : len (strip (join (lit " ") [lit "short"])) < 10)
    by (vm_compute; reflexivity).
  split; [exact H|].
  destruct (short_token_is_rejected (R := Sample.repr) Sample.bot
              (Sample.calm (Sample.answering 200 (Ok VNone)) 1000)
              (Sample.command 42 [lit "short"]) Sample.blank_world H)
    as (_ & _ & _ & Hsent).
  apply (Hsent 1000); [discriminate | reflexivity].
Defined.

(** C10.  About [_create_note], from any state [w]:
    - it changes the file only by one [store_note_message], made after a
      [create_note] whose dictionary is a success with a [note_id] that
      counts as true, and the row holds the text of that value, which is
      not empty;
    - when the remote service answers below 400 with a JSON object that
      has no [id], the user is told that the note was added and the file
      is left as it was;
    - so [_create_note] keeps every [note_id] of [note_messages]
      non-empty, and in every state [w0] that the bot can reach from a
      fresh file, whatever the handlers run, every row of
      [note_messages] has a non-empty [note_id]. *)
Theorem correlation_needs_note_id
    {F : Fernet} {R : PyRepr} (self : BlinkoTelegramBot) (e : env)
    (update : Update) (note_type : Z) (type_name : pystr) (w w0 : World) :
  let w' := snd (_create_note self e update note_type type_name w) in
  let content := strip (join (lit " ") (args update)) in
  (db w' <> db w ->
   exists (token : pystr) (success v : pyval) (mid : Z),
     let d := fst (create_note (blinko_api self) (net e) token content
                     note_type) in
     lookup d (lit "success") = Some success /\ truth success = true /\
     lookup d (lit "note_id") = Some v /\ truth v = true /\
     str v <> [] /\
     db w' =
     snd (store_note_message (storage self) (sql e 1%nat) (db w)
            (user_id update) mid (chat_id update) (str v) note_type)) /\
  (forall (token : pystr) (resp : response) (o : pydict) (mid : Z),
      let req := upsert_request (blinko_api self) token
                   {| nd_id := None; nd_content := content;
                      nd_type := note_type |} in
      let added := AddedToBlinko (title type_name)
                     (lit " (ID: " ++ str VNone ++ lit ")")
                     (prefix 100 content) (100 <? len content) in
      get_user_token (storage self) (sql e 0%nat) (db w) (user_id update)
      = Some token ->
      token <> [] ->
      args update <> [] ->
      content <> [] ->
      chat_action e = Ok tt ->
      net e req = Ok resp ->
      status_code resp < 400 ->
      json resp = Ok (VDict o) ->
      lookup o (lit "id") = None ->
      telegram e added = Ok mid ->
      _create_note self e update note_type type_name w =
      (Ok tt,
       {| db := db w; requests := requests w ++ [req];
          sent := sent w ++ [added] |})) /\
  (note_ids_nonempty (db w) -> note_ids_nonempty (db w')) /\
  (reachable self w0 -> note_ids_nonempty (db w0)).
Proof.
  cbv zeta. split; [|split; [|split]].
  - intros Hne.
    destruct (_create_note_db self e update note_type type_name w)
      as [Heq | (token & success & v & mid & _ & Hs & Hts & Hv & Htv & Hdb)];
      [contradiction|].
    exists token, success, v, mid. cbv zeta.
    repeat (split; [assumption|]).
    split; [apply str_of_true_nonempty, Htv | exact Hdb].
  - intros token resp o mid Hget Htok Hargs Hcontent Hchat Hnet Hst Hjson
      Hid Htg.
    unfold _create_note. run. rewrite Hget.
    destruct token as [|c token]; [congruence|].
    destruct (args update) as [|word words] eqn:Ha; [congruence|].
    destruct (strip (join (lit " ") (word :: words))) as [|c' content] eqn:Hc;
      [congruence|].
    assert (Hidem : strip (c' :: content) = c' :: content)
      by (rewrite <- Hc; apply strip_idem).
    cbn [PyStr.truthy negb]. rewrite Hchat.
    rewrite create_note_sent by (rewrite Hidem; discriminate).
    cbv zeta. rewrite Hidem, Hnet.
    destruct (status_code resp =? 401) eqn:E1; [arith|].
    destruct (status_code resp >=? 400) eqn:E2; [arith|].
    rewrite Hjson, Hid. cbn [fst snd]. unfold item, contains.
    change (lookup (success_result (VDict o) VNone) (lit "success"))
      with (Some (VBool true)).
    change (lookup (success_result (VDict o) VNone) (lit "note_id"))
      with (Some VNone).
    cbn [truth]. rewrite Htg. reflexivity.
  - intros Hn.
    destruct (_create_note_db self e update note_type type_name w)
      as [Heq | (token & success & v & mid & _ & _ & _ & _ & Htv & Hdb)].
    + rewrite Heq. exact Hn.
    + rewrite Hdb. apply store_note_message_nonempty; [exact Hn|].
      apply str_of_true_nonempty, Htv.
  - intros Hr. apply (reachable_consistent self w0 Hr).
Qed.

Lemma correlation_needs_note_id_witness :
  _create_note (R := Sample.repr) Sample.bot
    (Sample.calm
       (Sample.answering 200 (Ok (VDict [(lit "ok", VBool true)]))) 1000)
    (Sample.command 42 [lit "Buy"; lit "milk"]) 0 (lit "note")
    Sample.world_42
  = (Ok tt,
     {| db := Sample.db_42;
        requests :=
          [ upsert_request Sample.api (lit "secret-token-0001")
              {| nd_id := None; nd_content := lit "Buy milk";
                 nd_type := 0 |} ];
        sent :=
          [ AddedToBlinko (lit "Note") (lit " (ID: None)") (lit "Buy milk")
              false ] |}).
Proof.
  destruct (correlation_needs_note_id (R := Sample.repr) Sample.bot
              (Sample.calm
                 (Sample.answering 200 (Ok (VDict [(lit "ok", VBool true)])))
                 1000)
              (Sample.command 42 [lit "Buy"; lit "milk"]) 0 (lit "note")
              Sample.world_42 Sample.world_42)
    as (_ & Homitted & _ & _).
  refine (Homitted (lit "secret-token-0001")
            {| status_code := 200;
               json := Ok (VDict [(lit "ok", VBool true)]) |}
            [(lit "ok", VBool true)] 1000
            eq_refl _ _ _ eq_refl eq_refl _ eq_refl eq_refl eq_refl);
    try (vm_compute; discriminate).
  cbn. lia.
Defined.

(** With an [id] in the answer the row is written, under the message
    that reported the note, with the text of the [id]. *)
Example _create_note_with_id :
  note_messages
    (db (snd (_create_note (R := Sample.repr) Sample.bot
                (Sample.calm
                   (Sample.answering 200 (Ok (VDict [(lit "id", VInt 17)])))
                   1000)
                (Sample.command 42 [lit "Buy"; lit "milk"]) 0 (lit "note")
                Sample.world_42)))
  = [ {| n_user_id := 42; message_id := 1000; Storage.chat_id := 5;
         note_id := lit "17"; note_type := 0;
         n_created_at := lit "2025-01-01 00:00:00" |} ].
Proof. vm_compute. reflexivity. Qed.

End Commands.

(** ** storage.py: more on the two tables *)

Module MoreStorageFacts.
Import Utf8 Utf8Facts Storage TableFacts StorageFacts Vocabulary.

Lemma note_key_spec (uid mid cid : Z) (r : note_row) :
  note_key uid mid cid r = true <->
  (n_user_id r, message_id r, chat_id r) = (uid, mid, cid).
Proof.
  unfold note_key. split.
  - intros H. bool_to_Z. congruence.
  - intros H. injection H as -> -> ->. rewrite !Z.eqb_refl. reflexivity.
Qed.

Lemma note_key_other (uid mid cid uid' mid' cid' : Z) (r : note_row) :
  (uid', mid', cid') <> (uid, mid, cid) ->
  note_key uid mid cid r = true -> note_key uid' mid' cid' r = false.
Proof.
  intros Hne H. apply note_key_spec in H.
  destruct (note_key uid' mid' cid' r) eqn:E; [|reflexivity].
  apply note_key_spec in E. congruence.
Qed.

Lemma user_key_other (uid uid' : Z) (r : user_row) :
  uid' <> uid -> user_key uid r = true -> user_key uid' r = false.
Proof. unfold user_key. intros Hne H. arith. Qed.

Lemma filter_out_absent {A : Type} (p : A -> bool) (t : list A) :
  find p t = None -> filter (fun r => negb (p r)) t = t.
Proof.
  induction t as [|r t IH]; cbn; [reflexivity|].
  destruct (p r); [discriminate|]. cbn. intros H. f_equal. auto.
Qed.

Lemma find_filter_out_other {A : Type} (p q : A -> bool) (t : list A) :
  (forall r, q r = true -> p r = false) ->
  find p (filter (fun r => negb (q r)) t) = find p t.
Proof.
  intros Hqp. induction t as [|r t IH]; cbn; [reflexivity|].
  destruct (q r) eqn:Hr; cbn.
  - rewrite (Hqp r Hr). exact IH.
  - destruct (p r); [reflexivity | exact IH].
Qed.

Lemma filter_filter_out_other {A : Type} (p q : A -> bool) (t : list A) :
  (forall r, q r = true -> p r = false) ->
  filter p (filter (fun r => negb (q r)) t) = filter p t.
Proof.
  intros Hqp. induction t as [|r t IH]; cbn; [reflexivity|].
  destruct (q r) eqn:Hr; cbn.
  - rewrite (Hqp r Hr). exact IH.
  - destruct (p r); [f_equal|]; exact IH.
Qed.

Lemma NoDup_map_filter {A K : Type} (f : A -> K) (q : A -> bool)
    (t : list A) :
  NoDup (map f t) -> NoDup (map f (filter q t)).
Proof.
  induction t as [|r t IH]; cbn; [auto|].
  intros H. inversion H as [|x l Hin Hnd]; subst.
  destruct (q r); cbn; [|auto].
  constructor; [|auto]. intros Hc. apply Hin.
  apply in_map_iff in Hc as (y & Hy & Hyin).
  apply in_map_iff. exists y. split; [exact Hy|].
  apply filter_In in Hyin. tauto.
Qed.

Lemma NoDup_snoc_any {K : Type} (l : list K) (x : K) :
  NoDup l -> ~ In x l -> NoDup (l ++ [x]).
Proof.
  intros Hl Hx. induction Hl as [|y l Hy Hl IH]; cbn.
  - constructor; [tauto | constructor].
  - constructor.
    + rewrite in_app_iff. cbn. intros [H|[H|[]]]; [tauto|].
      subst. apply Hx. now left.
    + apply IH. intros H. apply Hx. now right.
Qed.

Lemma length_filter_out_present {A K : Type} (f : A -> K) (p : A -> bool)
    (key : K) (t : list A) :
  (forall r, p r = true <-> f r = key) ->
  NoDup (map f t) ->
  In key (map f t) ->
  S (List.length (filter (fun r => negb (p r)) t)) = List.length t.
Proof.
  intros Hp. induction t as [|r t IH]; cbn; [tauto|].
  intros Hnd Hin. inversion Hnd as [|x l Hnot Hnd']; subst.
  destruct (p r) eqn:E; cbn.
  - f_equal. apply Hp in E. rewrite E in Hnot.
    rewrite filter_out_absent; [reflexivity|].
    destruct (find p t) as [y|] eqn:Hf; [|reflexivity].
    apply find_some in Hf as [Hy Hpy]. apply Hp in Hpy.
    exfalso. apply Hnot. rewrite <- Hpy. apply in_map, Hy.
  - f_equal. apply IH; [auto|]. destruct Hin as [H|H]; [|auto].
    apply Hp in H. congruence.
Qed.

Section WithCipher.
Context {F : Fernet}.

(** The readers look at the row that [find] gives and at nothing else. *)
Lemma get_user_token_find (self : UserStorage) (env : sqlite_env)
    (d d' : DB) (uid : Z) :
  find (user_key uid) (user_tokens d) = find (user_key uid) (user_tokens d') ->
  get_user_token self env d uid = get_user_token self env d' uid.
Proof. unfold get_user_token. intros ->. reflexivity. Qed.

Lemma get_user_config_find (self : UserStorage) (env : sqlite_env)
    (d d' : DB) (uid : Z) :
  find (user_key uid) (user_tokens d) = find (user_key uid) (user_tokens d') ->
  get_user_config self env d uid = get_user_config self env d' uid.
Proof. unfold get_user_config. intros ->. reflexivity. Qed.

Lemma get_note_from_reply_find (self : UserStorage) (env : sqlite_env)
    (d d' : DB) (uid mid cid : Z) :
  find (note_key uid mid cid) (note_messages d)
  = find (note_key uid mid cid) (note_messages d') ->
  get_note_from_reply self env d uid mid cid
  = get_note_from_reply self env d' uid mid cid.
Proof. unfold get_note_from_reply. intros ->. reflexivity. Qed.

Lemma store_user_token_notes (self : UserStorage) (env : sqlite_env)
    (nonce : fnonce) (d : DB) (uid : Z) (uname token : pystr)
    (url : option pystr) :
  note_messages (snd (store_user_token self env nonce d uid uname token url))
  = note_messages d.
Proof.
  destruct (store_user_token_cases self env nonce d uid uname token url)
    as [(ct & _ & _ & Hst) | Hst]; rewrite Hst; reflexivity.
Qed.

Lemma remove_user_token_notes (self : UserStorage) (env : sqlite_env)
    (d : DB) (uid : Z) :
  note_messages (snd (remove_user_token self env d uid)) = note_messages d.
Proof.
  rewrite remove_user_token_result. destruct (sqlite_fault env); reflexivity.
Qed.

Lemma store_note_message_users (self : UserStorage) (env : sqlite_env)
    (d : DB) (uid mid cid : Z) (nid : pystr) (ntype : Z) :
  user_tokens (snd (store_note_message self env d uid mid cid nid ntype))
  = user_tokens d.
Proof.
  rewrite BotFacts.store_note_message_result.
  destruct (sqlite_fault env); reflexivity.
Qed.

Lemma note_primary_key_insert (now : pystr) (uid mid cid : Z) (nid : pystr)
    (ntype : Z) (t : list note_row) :
  NoDup (map (fun r => (n_user_id r, message_id r, chat_id r)) t) ->
  NoDup (map (fun r => (n_user_id r, message_id r, chat_id r))
           (insert_or_replace_note_messages now uid mid cid nid ntype t)).
Proof.
  intros H. unfold insert_or_replace_note_messages.
  rewrite map_app. cbn [map n_user_id message_id chat_id].
  apply NoDup_snoc_any.
  - apply NoDup_map_filter, H.
  - intros Hin. apply in_map_iff in Hin as (r & Hr & Hrin).
    apply filter_In in Hrin as [_ Hk].
    apply note_key_spec in Hr. rewrite Hr in Hk. discriminate.
Qed.

Lemma store_note_message_primary_key (self : UserStorage) (env : sqlite_env)
    (d : DB) (uid mid cid : Z) (nid : pystr) (ntype : Z) :
  note_primary_key d ->
  note_primary_key
    (snd (store_note_message self env d uid mid cid nid ntype)).
Proof.
  intros H. rewrite BotFacts.store_note_message_result.
  destruct (sqlite_fault env); cbn [snd]; [exact H|].
  apply note_primary_key_insert, H.
Qed.

(** A test of [scalar] that computes. *)
Lemma scalar_check (s : pystr) :
  forallb (fun c => (0 <=? c) && (c <? 0x110000) && negb (surrogate c)) s
  = true ->
  Forall scalar s.
Proof.
  intros H. apply Forall_forall. intros c Hc.
  rewrite forallb_forall in H. specialize (H c Hc).
  unfold scalar, surrogate in *. arith.
Qed.

(** A token that [encode] takes is made of scalar values. *)
Lemma encode_cp_ok_scalar (c : Z) (bs : list Z) :
  encode_cp c = Ok bs -> scalar c.
Proof.
  unfold encode_cp, surrogate, scalar. intros H.
  repeat decide_if; arith.
Qed.

Lemma encode_ok_scalar (s : pystr) (bs : list Z) :
  encode s = Ok bs -> Forall scalar s.
Proof.
  revert bs. induction s as [|c s IH]; cbn [encode]; intros bs H.
  - constructor.
  - destruct (encode_cp c) as [b|] eqn:Hc; [|discriminate].
    destruct (encode s) as [r|]; [|discriminate].
    constructor; [eapply encode_cp_ok_scalar, Hc | eapply IH; reflexivity].
Qed.

End WithCipher.
End MoreStorageFacts.

(** ** Properties of the store *)

Module StoreProperties.
Import Utf8 Utf8Facts Storage TableFacts StorageFacts Vocabulary
  MoreStorageFacts.



(** X3.  The first [store_user_token] for a user: when the user has no
    row, a call that answers [True] leaves exactly one row for the user
    and makes [get_user_count] one more than it was; a call that answers
    [False] leaves the count as it was. *)
Theorem first_upsert_adds_one_row
    {F : Fernet} (self : UserStorage) (env env' : sqlite_env)
    (nonce : fnonce) (d : DB) (uid : Z) (uname token : pystr)
    (url : option pystr) :
  find (user_key uid) (user_tokens d) = None ->
  sqlite_fault env' = false ->
  let r := store_user_token self env nonce d uid uname token url in
  (fst r = true ->
   List.length (rows_of uid (snd r)) = 1%nat /\
   get_user_count self env' (snd r) = get_user_count self env' d + 1) /\
  (fst r = false ->
   get_user_count self env' (snd r) = get_user_count self env' d).
Proof.
  intros Hnone Hf' r. subst r.
  destruct (store_user_token_cases self env nonce d uid uname token url)
    as [(ct & Hct & Hf & Hst) | Hst]; rewrite Hst; cbn [fst snd].
  - split; [|discriminate]. intros _. split.
    + unfold rows_of. cbn [user_tokens].
      unfold insert_or_replace_user_tokens.
      rewrite filter_filter_out; [reflexivity|].
      unfold user_key. cbn. apply Z.eqb_refl.
    + unfold get_user_count. rewrite !transaction_quiet by exact Hf'.
      cbn [user_tokens]. unfold insert_or_replace_user_tokens.
      rewrite (filter_out_absent _ _ Hnone), length_app.
      cbn [List.length]. lia.
  - split; [discriminate | reflexivity].
Qed.

Lemma first_upsert_adds_one_row_witness :
  find (user_key 43) (user_tokens Sample.db_42) = None /\
  get_user_count Sample.store Sample.quiet
    (snd (store_user_token Sample.store Sample.quiet tt Sample.db_42 43
            (lit "bob") (lit "secret-token-0043") None))
  = get_user_count Sample.store Sample.quiet Sample.db_42 + 1.
Proof.
  split; [reflexivity|].
  destruct (first_upsert_adds_one_row Sample.store Sample.quiet
              Sample.quiet tt Sample.db_42 43 (lit "bob")
              (lit "secret-token-0043") None eq_refl eq_refl)
    as (Htrue & _).
  apply Htrue. reflexivity.
Defined.

Lemma filter_out_idem {A : Type} (p : A -> bool) (t : list A) :
  filter (fun r => negb (p r)) (filter (fun r => negb (p r)) t)
  = filter (fun r => negb (p r)) t.
Proof.
  induction t as [|r t IH]; cbn; [reflexivity|].
  destruct (p r) eqn:E; cbn; [exact IH|]. rewrite E. cbn. f_equal. exact IH.
Qed.



(** X5.  [get_user_config] and [get_user_token] agree: the token of the
    configuration is the token that [get_user_token] returns, one is
    [None] exactly when the other is, and the other fields of the
    configuration are those of the row of the user. *)
Theorem config_agrees_with_token
    {F : Fernet} (self : UserStorage) (env : sqlite_env) (d : DB)
    (uid : Z) :
  get_user_token self env d uid
  = option_map cfg_token (get_user_config self env d uid) /\
  forall cfg : user_config,
    get_user_config self env d uid = Some cfg ->
    exists row : user_row,
      find (user_key uid) (user_tokens d) = Some row /\
      cfg_username cfg = username row /\
      cfg_blinko_url cfg = blinko_url row /\
      cfg_created_at cfg = created_at row /\
      decrypt_token (cipher self) (encrypted_token row) = Ok (cfg_token cfg).
Proof.
  unfold get_user_token, get_user_config, transaction.
  destruct (sqlite_fault env); [split; [reflexivity | discriminate]|].
  destruct (find (user_key uid) (user_tokens d)) as [row|];
    [|split; [reflexivity | discriminate]].
  destruct (decrypt_token (cipher self) (encrypted_token row)) as [tok|e]
    eqn:Hd; cbn [rbind option_map]; (split; [reflexivity|]);
    intros cfg H; [|discriminate H].
  injection H as <-. exists row. cbn. repeat split; auto.
Qed.

(** X6.  A fault of SQLite never escapes and never changes the file: the
    three writers answer [False] and leave the file as it was, the
    readers answer [None], and [get_user_count] answers 0, as it does
    for a table with no row. *)
Theorem sqlite_fault_is_contained
    {F : Fernet} (self : UserStorage) (env : sqlite_env) (nonce : fnonce)
    (d : DB) (uid mid cid : Z) (uname token nid : pystr)
    (url : option pystr) (ntype : Z) :
  sqlite_fault env = true ->
  store_user_token self env nonce d uid uname token url = (false, d) /\
  remove_user_token self env d uid = (false, d) /\
  store_note_message self env d uid mid cid nid ntype = (false, d) /\
  get_user_token self env d uid = None /\
  get_user_config self env d uid = None /\
  get_note_from_reply self env d uid mid cid = None /\
  get_user_count self env d = 0.
Proof.
  intros Hf.
  unfold store_user_token, remove_user_token, store_note_message,
    get_user_token, get_user_config, get_note_from_reply, get_user_count.
  unfold transaction.
  destruct (encrypt_token (cipher self) nonce token); cbn [rbind];
    rewrite !Hf; repeat split.
Qed.

Lemma sqlite_fault_is_contained_witness :
  sqlite_fault Scenario.faulty = true /\
  remove_user_token Sample.store Scenario.faulty Sample.db_42 42
  = (false, Sample.db_42) /\
  get_user_count Sample.store Scenario.faulty Sample.db_42 = 0.
Proof.
  split; [reflexivity|].
  destruct (sqlite_fault_is_contained Sample.store Scenario.faulty tt
              Sample.db_42 42 1000 5 (lit "ana") (lit "secret-token-0001")
              (lit "17") None 0 eq_refl)
    as (_ & Hr & _ & _ & _ & _ & Hc).
  split; [exact Hr | exact Hc].
Defined.

(** X7.  [store_user_token] answers [True] only for a token made of
    Unicode scalar values (one that UTF-8 can encode) and only when
    SQLite did not fault, and then the row of the user holds the name
    and the URL of the call; whenever it answers [False] the file is as
    it was. *)
Theorem store_user_token_answer
    {F : Fernet} (self : UserStorage) (env : sqlite_env) (nonce : fnonce)
    (d : DB) (uid : Z) (uname token : pystr) (url : option pystr) :
  let r := store_user_token self env nonce d uid uname token url in
  (fst r = true ->
   Forall scalar token /\ sqlite_fault env = false /\
   exists row : user_row,
     find (user_key uid) (user_tokens (snd r)) = Some row /\
     username row = uname /\ blinko_url row = url /\
     encrypt_token (cipher self) nonce token = Ok (encrypted_token row)) /\
  (fst r = false -> snd r = d).
Proof.
  cbv zeta.
  destruct (store_user_token_cases self env nonce d uid uname token url)
    as [(ct & Hct & Hf & Hst) | Hst]; rewrite Hst; cbn [fst snd].
  - split; [|discriminate]. intros _. split; [|split; [exact Hf|]].
    + unfold encrypt_token in Hct.
      destruct (encode token) as [bs|] eqn:He; [|discriminate].
      eapply encode_ok_scalar, He.
    + eexists. cbn [user_tokens]. unfold insert_or_replace_user_tokens.
      rewrite find_filter_out by (unfold user_key; cbn; apply Z.eqb_refl).
      repeat split. exact Hct.
  - split; [discriminate | reflexivity].
Qed.

(** X8.  The two tables are independent: writing or removing a credential
    changes no answer of [get_note_from_reply] (a reset deletes no
    correlation), and writing a correlation changes no answer of
    [get_user_token], [get_user_config] or [get_user_count]. *)
Theorem credentials_and_correlations_are_independent
    {F : Fernet} (self : UserStorage) (env env' : sqlite_env)
    (nonce : fnonce) (d : DB) (uid : Z) (uname token : pystr)
    (url : option pystr) (uid2 mid2 cid2 : Z) (nid : pystr) (ntype : Z)
    (u m c : Z) :
  get_note_from_reply self env'
    (snd (store_user_token self env nonce d uid uname token url)) u m c
  = get_note_from_reply self env' d u m c /\
  get_note_from_reply self env' (snd (remove_user_token self env d uid)) u m c
  = get_note_from_reply self env' d u m c /\
  get_user_token self env'
    (snd (store_note_message self env d uid2 mid2 cid2 nid ntype)) u
  = get_user_token self env' d u /\
  get_user_config self env'
    (snd (store_note_message self env d uid2 mid2 cid2 nid ntype)) u
  = get_user_config self env' d u /\
  get_user_count self env'
    (snd (store_note_message self env d uid2 mid2 cid2 nid ntype))
  = get_user_count self env' d.
Proof.
  split; [|split; [|split; [|split]]].
  - apply get_note_from_reply_find. rewrite store_user_token_notes.
    reflexivity.
  - apply get_note_from_reply_find. rewrite remove_user_token_notes.
    reflexivity.
  - apply get_user_token_find. rewrite store_note_message_users.
    reflexivity.
  - apply get_user_config_find. rewrite store_note_message_users.
    reflexivity.
  - unfold get_user_count. rewrite store_note_message_users. reflexivity.
Qed.

(** X9.  [store_user_token] for one user changes nothing for another:
    the rows of the other user, and what [get_user_token] and
    [get_user_config] return for that user, are what they were. *)
Theorem upsert_leaves_other_users
    {F : Fernet} (self : UserStorage) (env env' : sqlite_env)
    (nonce : fnonce) (d : DB) (uid uid' : Z) (uname token : pystr)
    (url : option pystr) :
  uid' <> uid ->
  let r := store_user_token self env nonce d uid uname token url in
  rows_of uid' (snd r) = rows_of uid' d /\
  get_user_token self env' (snd r) uid' = get_user_token self env' d uid' /\
  get_user_config self env' (snd r) uid' = get_user_config self env' d uid'.
Proof.
  intros Hne r. subst r.
  destruct (store_user_token_cases self env nonce d uid uname token url)
    as [(ct & Hct & Hf & Hst) | Hst]; rewrite Hst; cbn [fst snd];
    [|repeat split].
  assert (Hfind :
    find (user_key uid')
      (insert_or_replace_user_tokens (current_timestamp env) uid uname ct
         url (user_tokens d))
    = find (user_key uid') (user_tokens d)).
  { unfold insert_or_replace_user_tokens. apply find_filter_other.
    - intros x. apply user_key_other, Hne.
    - unfold user_key. cbn. apply Z.eqb_refl. }
  split; [|split].
  - unfold rows_of. cbn [user_tokens]. apply rows_of_insert_other, Hne.
  - apply get_user_token_find. exact Hfind.
  - apply get_user_config_find. exact Hfind.
Qed.

Lemma upsert_leaves_other_users_witness :
  42 <> 43 /\
  get_user_token Sample.store Sample.quiet
    (snd (store_user_token Sample.store Sample.quiet tt Sample.db_42 43
            (lit "bob") (lit "secret-token-0043") None)) 42
  = get_user_token Sample.store Sample.quiet Sample.db_42 42.
Proof.
  assert (H : 42 <> 43) by lia.
  split; [exact H|].
  exact (proj1 (proj2 (upsert_leaves_other_users Sample.store Sample.quiet
                         Sample.quiet tt Sample.db_42 43 42 (lit "bob")
                         (lit "secret-token-0043") None H))).
Defined.

End StoreProperties.

(** ** Properties of the remote note client *)

Module ClientProperties.
Import BlinkoApi ClientFacts BotFacts Vocabulary.

Lemma strip_first (s : pystr) (c : Z) :
  hd_error (strip s) = Some c -> isspace c = false.
Proof.
  unfold strip, lstrip. destruct (dropwhile isspace s) as [|x t] eqn:E.
  - discriminate.
  - pose proof (dropwhile_head _ _ _ _ E) as Hx.
    unfold rstrip. cbn [rev].
    destruct (dropwhile_last isspace (rev t) x Hx) as [u Hu].
    rewrite Hu, rev_app_distr. cbn. intros H. injection H as <-. exact Hx.
Qed.

Lemma strip_last (s : pystr) (c : Z) :
  last_char (strip s) = Some c -> isspace c = false.
Proof.
  unfold last_char, strip, rstrip. rewrite rev_involutive.
  destruct (dropwhile isspace (rev (lstrip s))) as [|x t] eqn:E;
    [discriminate|].
  cbn. intros H. injection H as <-. eapply dropwhile_head, E.
Qed.

Lemma dropwhile_repeat (ch : Z) (n : nat) (s : pystr) :
  dropwhile (Z.eqb ch) (repeat ch n ++ s) = dropwhile (Z.eqb ch) s.
Proof.
  induction n as [|n IH]; cbn; [reflexivity|].
  rewrite Z.eqb_refl. exact IH.
Qed.

Lemma rev_repeat (ch : Z) (n : nat) : rev (repeat ch n) = repeat ch n.
Proof.
  induction n as [|n IH]; cbn; [reflexivity|].
  rewrite IH. clear IH. induction n as [|n IH]; cbn; [reflexivity|].
  f_equal. exact IH.
Qed.

Lemma rstrip_char_repeat (ch : Z) (n : nat) (s : pystr) :
  rstrip_char ch (s ++ repeat ch n) = rstrip_char ch s.
Proof.
  unfold rstrip_char.
  rewrite rev_app_distr, rev_repeat, dropwhile_repeat. reflexivity.
Qed.

Lemma rstrip_char_last (ch : Z) (s : pystr) :
  last_char (rstrip_char ch s) <> Some ch.
Proof.
  unfold last_char, rstrip_char. rewrite rev_involutive.
  destruct (dropwhile (Z.eqb ch) (rev s)) as [|x t] eqn:E; [discriminate|].
  cbn. intros H. injection H as ->.
  apply dropwhile_head in E. rewrite Z.eqb_refl in E. discriminate.
Qed.

Section WithRepr.
Context {R : PyRepr}.

(** [update_note] on content that passes the guard, by the answer of the
    transport. *)
Lemma update_note_sent (self : BlinkoAPI) (net : transport)
    (token note_id content : pystr) (note_type : Z) :
  strip content <> [] ->
  update_note self net token note_id content note_type =
  (let req := upsert_request self token
                {| nd_id := Some note_id; nd_content := strip content;
                   nd_type := note_type |} in
   match net req with
   | Ok response =>
       if status_code response =? 401 then
         unauthorized_failure
           (lit "Invalid or expired token. Please reconfigure with /configure")
       else if status_code response >=? 400 then
         api_error_failure (status_code response)
       else
         match json response with
         | Ok (VDict o) =>
             success_result (VDict o)
               match lookup o (lit "id") with
               | Some v => v
               | None => VStr note_id
               end
         | Ok _ =>
             on_exception
               (lit "Request timed out. Please try again.")
               (lit "Failed to connect to Blinko server. Please check your configuration.")
               AttributeError
         | Raise e =>
             on_exception
               (lit "Request timed out. Please try again.")
               (lit "Failed to connect to Blinko server. Please check your configuration.")
               e
         end
   | Raise e =>
       on_exception
         (lit "Request timed out. Please try again.")
         (lit "Failed to connect to Blinko server. Please check your configuration.")
         e
   end,
   [upsert_request self token
      {| nd_id := Some note_id; nd_content := strip content;
         nd_type := note_type |}]).
Proof.
  intros H. unfold update_note. rewrite (guard_not_blank content H).
  cbv zeta. f_equal.
  destruct (net _) as [response|e]; cbn [rbind]; [|reflexivity].
  destruct (status_code response =? 401); [reflexivity|].
  destruct (status_code response >=? 400); [reflexivity|].
  destruct (json response) as [v|e]; cbn [rbind]; [|reflexivity].
  destruct v; reflexivity.
Qed.

Lemma success_of_on_exception (m1 m2 : pystr) (e : exn) :
  lookup (on_exception m1 m2 e) (lit "success") = Some (VBool false).
Proof.
  unfold on_exception.
  destruct (is_timeout e); [reflexivity|].
  destruct (is_connection_error e); reflexivity.
Qed.

End WithRepr.

(** X10.  For every content that is not empty after trimming,
    [update_note] sends exactly one request, the upsert with the id of
    the note, and what it returns is fixed by what the transport did:
    status 401 gives [Unauthorized]; any other status of 400 or more
    gives [ApiError] with the status; an exception gives
    [TimeoutFailure], [ConnectionFailure] or [UnexpectedError] by its
    class; any status below 400 with a JSON object gives [Success] with
    the [id] of the object, and with the id of the call when the object
    has no [id]. *)
Theorem update_note_outcome
    {R : PyRepr} (self : BlinkoAPI) (net : transport)
    (token note_id content : pystr) (note_type : Z) :
  strip content <> [] ->
  let req := upsert_request self token
               {| nd_id := Some note_id; nd_content := strip content;
                  nd_type := note_type |} in
  let d := fst (update_note self net token note_id content note_type) in
  snd (update_note self net token note_id content note_type) = [req] /\
  (forall resp : response,
      net req = Ok resp -> status_code resp = 401 ->
      classify d = Some Unauthorized) /\
  (forall resp : response,
      net req = Ok resp -> status_code resp >= 400 ->
      status_code resp <> 401 ->
      classify d = Some (ApiError (status_code resp))) /\
  (forall e : exn,
      net req = Raise e ->
      classify d =
      Some (if is_timeout e then TimeoutFailure
            else if is_connection_error e then ConnectionFailure
            else UnexpectedError)) /\
  (forall (resp : response) (o : pydict),
      net req = Ok resp -> status_code resp < 400 ->
      json resp = Ok (VDict o) ->
      classify d =
      Some (Success
              match lookup o (lit "id") with
              | Some v => v
              | None => VStr note_id
              end)).
Proof.
  intros H req d. subst d. rewrite (update_note_sent _ _ _ _ _ _ H).
  fold req. cbn [fst snd]. split; [reflexivity|]. repeat split.
  - intros resp -> Hs. apply Z.eqb_eq in Hs. rewrite Hs. reflexivity.
  - intros resp -> Hge Hne.
    destruct (status_code resp =? 401) eqn:E1; [arith|].
    destruct (status_code resp >=? 400) eqn:E2; [reflexivity | arith].
  - intros e ->. apply classify_on_exception.
  - intros resp o -> Hs Hj.
    destruct (status_code resp =? 401) eqn:E1; [arith|].
    destruct (status_code resp >=? 400) eqn:E2; [arith|].
    rewrite Hj. reflexivity.
Qed.

Lemma update_note_outcome_witness :
  strip (lit " Buy milk and eggs ") <> [] /\
  classify
    (fst (update_note (R := Sample.repr) Sample.api
            (Sample.answering 200 (Ok (VDict [(lit "ok", VBool true)])))
            (lit "secret-token-0001") (lit "17")
            (lit " Buy milk and eggs ") 0))
  = Some (Success (VStr (lit "17"))).
Proof.
  assert (H : strip (lit " Buy milk and eggs ") <> [])
    by (vm_compute; discriminate).
  split; [exact H|].
  destruct (update_note_outcome (R := Sample.repr) Sample.api
              (Sample.answering 200 (Ok (VDict [(lit "ok", VBool true)])))
              (lit "secret-token-0001") (lit "17")
              (lit " Buy milk and eggs ") 0 H)
    as (_ & _ & _ & _ & Hok).
  apply (Hok {| status_code := 200;
                json := Ok (VDict [(lit "ok", VBool true)]) |}
             [(lit "ok", VBool true)]);
    [reflexivity | cbn; lia | reflexivity].
Defined.

(** X11.  In [create_note] every status below 400 takes the success
    path, whether it is a 2xx or not: with a JSON object the result is
    [Success]; with a body that is no JSON ([JSONDecodeError]) or is JSON
    but no object (a list, a string, a number, [null]) the call of [get]
    fails inside the [try] and the result is [UnexpectedError], for
    [create_note] and for [update_note] alike. *)
Theorem body_without_object_is_unexpected
    {R : PyRepr} (self : BlinkoAPI) (net : transport)
    (token note_id content : pystr) (note_type : Z) (resp : response) :
  strip content <> [] ->
  status_code resp < 400 ->
  let created := upsert_request self token
                   {| nd_id := None; nd_content := strip content;
                      nd_type := note_type |} in
  let updated := upsert_request self token
                   {| nd_id := Some note_id; nd_content := strip content;
                      nd_type := note_type |} in
  (net created = Ok resp ->
   classify (fst (create_note self net token content note_type)) =
   Some match json resp with
        | Ok (VDict o) =>
            Success match lookup o (lit "id") with
                    | Some v => v
                    | None => VNone
                    end
        | Ok _ => UnexpectedError
        | Raise e =>
            if is_timeout e then TimeoutFailure
            else if is_connection_error e then ConnectionFailure
            else UnexpectedError
        end) /\
  (net updated = Ok resp ->
   (forall o : pydict, json resp <> Ok (VDict o)) ->
   json resp = Raise JSONDecodeError \/ (exists v, json resp = Ok v) ->
   classify (fst (update_note self net token note_id content note_type))
   = Some UnexpectedError).
Proof.
  intros H Hs created updated.
  assert (E1 : (status_code resp =? 401) = false) by arith.
  assert (E2 : (status_code resp >=? 400) = false) by arith.
  split.
  - intros Hnet. rewrite (create_note_sent _ _ _ _ _ H). fold created.
    cbn [fst]. rewrite Hnet, E1, E2.
    destruct (json resp) as [v|e].
    + destruct v; reflexivity.
    + apply classify_on_exception.
  - intros Hnet Hno Hj. rewrite (update_note_sent _ _ _ _ _ _ H).
    fold updated. cbn [fst]. rewrite Hnet, E1, E2.
    destruct Hj as [Hj | [v Hj]]; rewrite Hj.
    + reflexivity.
    + destruct v; try reflexivity. exfalso. eapply Hno, Hj.
Qed.

Lemma body_without_object_is_unexpected_witness :
  strip (lit "Buy milk") <> [] /\
  classify
    (fst (create_note (R := Sample.repr) Sample.api
            (Sample.answering 304 (Ok (VList [])))
            (lit "secret-token-0001") (lit "Buy milk") 0))
  = Some UnexpectedError.
Proof.
  assert (H : strip (lit "Buy milk") <> []) by (vm_compute; discriminate).
  split; [exact H|].
  assert (Hs : status_code {| status_code := 304; json := Ok (VList []) |}
               < 400) by (cbn; lia).
  exact (proj1 (body_without_object_is_unexpected (R := Sample.repr)
                  Sample.api (Sample.answering 304 (Ok (VList [])))
                  (lit "secret-token-0001") (lit "17") (lit "Buy milk") 0
                  {| status_code := 304; json := Ok (VList []) |} H Hs)
               eq_refl).
Defined.

(** X12.  What [create_note] and [update_note] send: every request is a
    POST of [note/upsert] with the header [Authorization: Bearer <token>]
    and a timeout of 30, and its body carries the content trimmed: not
    empty, not changed by trimming again, with no whitespace as first or
    last character. *)
Theorem transmitted_content_is_trimmed
    {R : PyRepr} (self : BlinkoAPI) (net : transport)
    (token note_id content : pystr) (note_type : Z) (req : request) :
  In req (snd (create_note self net token content note_type)
          ++ snd (update_note self net token note_id content note_type)) ->
  r_method req = POST /\
  url_ref (r_url req) = lit "note/upsert" /\
  r_headers req = [ (lit "Authorization", lit "Bearer " ++ token) ] /\
  r_timeout req = 30 /\
  exists body : note_data,
    r_json req = Some body /\
    nd_content body = strip content /\
    nd_type body = note_type /\
    nd_content body <> [] /\
    strip (nd_content body) = nd_content body /\
    (forall c : Z, hd_error (nd_content body) = Some c -> isspace c = false) /\
    (forall c : Z, last_char (nd_content body) = Some c -> isspace c = false).
Proof.
  unfold create_note, update_note.
  destruct (negb (PyStr.truthy content)
            || negb (PyStr.truthy (strip content))) eqn:G;
    cbn [snd app In]; [tauto|].
  assert (Hne : strip content <> []).
  { intros Hs. rewrite (guard_blank content Hs) in G. discriminate. }
  intros [<- | [<- | []]]; cbn;
    (repeat split; [];
     eexists; repeat split; cbn [nd_content nd_type];
     [ exact Hne | apply strip_idem | apply strip_first | apply strip_last ]).
Qed.

Lemma transmitted_content_is_trimmed_witness :
  exists body : note_data,
    r_json (upsert_request Sample.api (lit "secret-token-0001")
              {| nd_id := None; nd_content := lit "Buy milk";
                 nd_type := 0 |}) = Some body /\
    nd_content body = strip (lit "  Buy milk  ").
Proof.
  destruct (transmitted_content_is_trimmed (R := Sample.repr) Sample.api
              (Sample.answering 200 (Ok VNone)) (lit "secret-token-0001")
              (lit "17") (lit "  Buy milk  ") 0
              (upsert_request Sample.api (lit "secret-token-0001")
                 {| nd_id := None; nd_content := lit "Buy milk";
                    nd_type := 0 |}))
    as (_ & _ & _ & _ & body & Hj & Hc & _).
  - left. reflexivity.
  - exists body. split; assumption.
Defined.

(** X13.  The base URL is normalised before [urljoin]: the base handed to
    it ends with exactly one slash, and a configured base URL with any
    number of slashes at its end gives the same requests as the URL
    without them. *)
Theorem base_url_trailing_slashes
    (self : BlinkoAPI) (n : nat) (token : pystr) (body : note_data) :
  let more :=
    {| base_url := base_url self ++ repeat 47 n; session := session self |} in
  upsert_request more token body = upsert_request self token body /\
  probe_request more token = probe_request self token /\
  url_base (r_url (probe_request self token))
  = url_base (r_url (upsert_request self token body)) /\
  exists b : pystr,
    url_base (r_url (upsert_request self token body)) = b ++ [47] /\
    last_char b <> Some 47.
Proof.
  cbv zeta. unfold upsert_request, probe_request. cbn [base_url session].
  rewrite rstrip_char_repeat. repeat split.
  exists (rstrip_char 47 (base_url self)). split; [reflexivity|].
  apply rstrip_char_last.
Qed.

(** X14.  [test_token] with no response: when the transport raises, the
    result is a failure, by the class of the exception a [Timeout]
    failure, a [ConnectionFailure] or an [UnexpectedError], and never an
    acceptance of the credential; the request was a GET of [note] with
    the bearer header, no body and a timeout of 10. *)
Theorem test_token_without_response
    {R : PyRepr} (self : BlinkoAPI) (net : transport) (token : pystr)
    (e : exn) :
  net (probe_request self token) = Raise e ->
  let d := fst (test_token self net token) in
  lookup d (lit "success") = Some (VBool false) /\
  classify d =
  Some (if is_timeout e then TimeoutFailure
        else if is_connection_error e then ConnectionFailure
        else UnexpectedError) /\
  r_method (probe_request self token) = GET /\
  url_ref (r_url (probe_request self token)) = lit "note" /\
  r_headers (probe_request self token)
  = [ (lit "Authorization", lit "Bearer " ++ token) ] /\
  r_json (probe_request self token) = None /\
  r_timeout (probe_request self token) = 10.
Proof.
  intros Hnet. cbv zeta. unfold test_token. cbn [fst]. rewrite Hnet.
  cbn [rbind]. rewrite success_of_on_exception, classify_on_exception.
  repeat split.
Qed.

Lemma test_token_without_response_witness :
  classify
    (fst (test_token (R := Sample.repr) Sample.api
            (fun _ => Raise ReqConnectTimeout) (lit "secret-token-0001")))
  = Some TimeoutFailure.
Proof.
  exact (proj1 (proj2 (test_token_without_response (R := Sample.repr)
                         Sample.api (fun _ => Raise ReqConnectTimeout)
                         (lit "secret-token-0001") ReqConnectTimeout
                         eq_refl))).
Defined.

End ClientProperties.

(** ** bot.py: more on the handlers *)

Module MoreBotFacts.
Import Utf8 Utf8Facts Storage TableFacts StorageFacts BlinkoApi Bot
  ClientFacts BotFacts Vocabulary MoreStorageFacts ClientProperties.

Ltac unfold_handlers :=
  unfold start_command, help_command, configure_command, note_command,
    blinko_command, _create_note, status_command, reset_command,
    handle_reply_update.

Ltac clean_ok :=
  repeat match goal with
         | H : Ok _ = Ok _ |- _ => apply Ok_inj in H; subst
         end.

Ltac log_tail :=
  first [ reflexivity
        | symmetry; apply app_nil_r
        | rewrite <- !app_assoc; reflexivity ].

Section WithCipher.
Context {F : Fernet} {R : PyRepr}.

Lemma store_user_token_eq_notes (self : UserStorage) (env : sqlite_env)
    (nonce : fnonce) (d d' : DB) (uid : Z) (uname token : pystr)
    (url : option pystr) (b : bool) :
  store_user_token self env nonce d uid uname token url = (b, d') ->
  note_messages d' = note_messages d.
Proof.
  intros H.
  pose proof (store_user_token_notes self env nonce d uid uname token url)
    as X.
  rewrite H in X. exact X.
Qed.

Lemma remove_user_token_eq_notes (self : UserStorage) (env : sqlite_env)
    (d d' : DB) (uid : Z) (b : bool) :
  remove_user_token self env d uid = (b, d') ->
  note_messages d' = note_messages d.
Proof.
  intros H. pose proof (remove_user_token_notes self env d uid) as X.
  rewrite H in X. exact X.
Qed.

Lemma store_note_message_eq_users (self : UserStorage) (env : sqlite_env)
    (d d' : DB) (uid mid cid : Z) (nid : pystr) (ntype : Z) (b : bool) :
  store_note_message self env d uid mid cid nid ntype = (b, d') ->
  user_tokens d' = user_tokens d.
Proof.
  intros H.
  pose proof (store_note_message_users self env d uid mid cid nid ntype)
    as X.
  rewrite H in X. exact X.
Qed.

Lemma store_note_message_eq_primary_key (self : UserStorage)
    (env : sqlite_env) (d d' : DB) (uid mid cid : Z) (nid : pystr)
    (ntype : Z) (b : bool) :
  store_note_message self env d uid mid cid nid ntype = (b, d') ->
  note_primary_key d -> note_primary_key d'.
Proof.
  intros H Hpk.
  pose proof (store_note_message_primary_key self env d uid mid cid nid
                ntype Hpk) as X.
  rewrite H in X. exact X.
Qed.

(** Every handler keeps the composite key of [note_messages]. *)
Lemma handle_note_primary_key (self : BlinkoTelegramBot) (h : handler)
    (e : env) (update : Update) (w : World) :
  note_primary_key (db w) ->
  note_primary_key (db (snd (handle self h e update w))).
Proof.
  intros Hc.
  destruct h; cbn [handle]; unfold_handlers;
    run; unfold item, contains;
    repeat (branch; cbn [snd db]); subst; try exact Hc; try discriminate;
    clean_ok.
  all: try (unfold note_primary_key;
            erewrite store_user_token_eq_notes by eassumption; exact Hc).
  all: try (unfold note_primary_key;
            erewrite remove_user_token_eq_notes by eassumption; exact Hc).
  all: eapply store_note_message_eq_primary_key; eassumption.
Qed.

Lemma reachable_note_primary_key (self : BlinkoTelegramBot) (w : World) :
  reachable self w -> note_primary_key (db w).
Proof.
  induction 1 as [|w h e update _ IH].
  - constructor.
  - apply handle_note_primary_key, IH.
Qed.

(** Which table a handler may write. *)
Lemma handle_tables (self : BlinkoTelegramBot) (h : handler)
    (e : env) (update : Update) (w : World) :
  match h with
  | OnConfigure | OnReset =>
      note_messages (db (snd (handle self h e update w)))
      = note_messages (db w)
  | OnNote | OnBlinko | OnReply =>
      user_tokens (db (snd (handle self h e update w))) = user_tokens (db w)
  | OnStart | OnHelp | OnStatus =>
      db (snd (handle self h e update w)) = db w
  end.
Proof.
  destruct h; cbn [handle]; unfold_handlers;
    run; unfold item, contains;
    repeat (branch; cbn [snd db]); subst; try reflexivity; try discriminate;
    clean_ok.
  all: try (eapply store_user_token_eq_notes; eassumption).
  all: try (eapply remove_user_token_eq_notes; eassumption).
  all: eapply store_note_message_eq_users; eassumption.
Qed.

Lemma notes_of_user_insert_other (now : pystr) (uid uid' mid cid : Z)
    (nid : pystr) (ntype : Z) (t : list note_row) :
  uid' <> uid ->
  filter (fun r => n_user_id r =? uid')
    (insert_or_replace_note_messages now uid mid cid nid ntype t)
  = filter (fun r => n_user_id r =? uid') t.
Proof.
  intros Hne. unfold insert_or_replace_note_messages.
  rewrite filter_app. cbn [filter n_user_id].
  destruct (uid =? uid') eqn:E; [arith|]. rewrite app_nil_r.
  apply filter_filter_out_other. intros r Hk.
  unfold note_key in Hk. arith.
Qed.

(** What a write for one user leaves of another user. *)
Lemma store_user_token_eq_other (self : UserStorage) (env : sqlite_env)
    (nonce : fnonce) (d d' : DB) (uid uid' : Z) (uname token : pystr)
    (url : option pystr) (b : bool) :
  store_user_token self env nonce d uid uname token url = (b, d') ->
  uid' <> uid ->
  rows_of uid' d' = rows_of uid' d /\
  notes_of_user uid' d' = notes_of_user uid' d.
Proof.
  intros H Hne.
  destruct (store_user_token_cases self env nonce d uid uname token url)
    as [(ct & _ & _ & Hst) | Hst];
    rewrite Hst in H; injection H as _ <-; [|split; reflexivity].
  split; [|reflexivity].
  unfold rows_of. cbn [user_tokens]. apply rows_of_insert_other, Hne.
Qed.

Lemma remove_user_token_eq_other (self : UserStorage) (env : sqlite_env)
    (d d' : DB) (uid uid' : Z) (b : bool) :
  remove_user_token self env d uid = (b, d') ->
  uid' <> uid ->
  rows_of uid' d' = rows_of uid' d /\
  notes_of_user uid' d' = notes_of_user uid' d.
Proof.
  intros H Hne. rewrite remove_user_token_result in H.
  destruct (sqlite_fault env); injection H as _ <-; [split; reflexivity|].
  split; [|reflexivity].
  unfold rows_of. cbn [user_tokens]. apply filter_filter_out_other.
  intros x. apply user_key_other, Hne.
Qed.

Lemma store_note_message_eq_other (self : UserStorage) (env : sqlite_env)
    (d d' : DB) (uid uid' mid cid : Z) (nid : pystr) (ntype : Z) (b : bool) :
  store_note_message self env d uid mid cid nid ntype = (b, d') ->
  uid' <> uid ->
  rows_of uid' d' = rows_of uid' d /\
  notes_of_user uid' d' = notes_of_user uid' d.
Proof.
  intros H Hne. rewrite store_note_message_result in H.
  destruct (sqlite_fault env); injection H as _ <-; [split; reflexivity|].
  split; [reflexivity|].
  unfold notes_of_user. cbn [note_messages].
  apply notes_of_user_insert_other, Hne.
Qed.

Lemma create_note_requests (self : BlinkoAPI) (net : transport)
    (token content : pystr) (note_type : Z) :
  at_most_one self is_post
    (snd (create_note self net token content note_type)).
Proof.
  unfold create_note, at_most_one.
  destruct (negb (PyStr.truthy content)
            || negb (PyStr.truthy (strip content)));
    cbn [snd List.length forallb]; repeat split; auto.
Qed.

Lemma update_note_requests (self : BlinkoAPI) (net : transport)
    (token note_id content : pystr) (note_type : Z) :
  at_most_one self is_post
    (snd (update_note self net token note_id content note_type)).
Proof.
  unfold update_note, at_most_one.
  destruct (negb (PyStr.truthy content)
            || negb (PyStr.truthy (strip content)));
    cbn [snd List.length forallb]; repeat split; auto.
Qed.

Lemma test_token_requests (self : BlinkoAPI) (net : transport)
    (token : pystr) :
  at_most_one self is_get (snd (test_token self net token)).
Proof.
  unfold test_token, at_most_one.
  cbn [snd List.length forallb]; repeat split; auto.
Qed.

Lemma no_requests (self : BlinkoAPI) (method : request -> bool) :
  at_most_one self method [].
Proof. unfold at_most_one. cbn. repeat split; auto. Qed.

(** [test_token] by the answer of the transport. *)
Lemma test_token_accepts (self : BlinkoAPI) (net : transport)
    (token : pystr) (resp : response) :
  net (probe_request self token) = Ok resp ->
  status_code resp <> 401 ->
  lookup (fst (test_token self net token)) (lit "success")
  = Some (VBool true).
Proof.
  intros Hnet Hs. unfold test_token. cbn [fst]. rewrite Hnet. cbn [rbind].
  destruct (status_code resp =? 401) eqn:E; [arith|].
  destruct ((status_code resp =? 200) || (status_code resp =? 403));
    reflexivity.
Qed.

Lemma test_token_rejects (self : BlinkoAPI) (net : transport)
    (token : pystr) :
  (forall resp : response,
      net (probe_request self token) = Ok resp -> status_code resp = 401 ->
      fst (test_token self net token)
      = unauthorized_failure (lit "Invalid or expired token")) /\
  (forall e : exn,
      net (probe_request self token) = Raise e ->
      fst (test_token self net token)
      = on_exception (lit "Request timed out. Server may be unavailable.")
          (lit "Failed to connect to Blinko server.") e).
Proof.
  unfold test_token. cbn [fst]. split.
  - intros resp -> Hs. cbn [rbind]. apply Z.eqb_eq in Hs. rewrite Hs.
    reflexivity.
  - intros e ->. reflexivity.
Qed.

(** What [configure_command] does to the file: nothing, or one call of
    [store_user_token] with the token it tested, after a test that
    succeeded. *)
Lemma configure_command_db (self : BlinkoTelegramBot) (e : env)
    (update : Update) (w : World) :
  db (snd (configure_command self e update w)) = db w \/
  exists success : pyval,
    10 <= len (strip (join (lit " ") (args update))) /\
    lookup (fst (test_token (blinko_api self) (net e)
                   (strip (join (lit " ") (args update)))))
      (lit "success") = Some success /\
    truth success = true /\
    db (snd (configure_command self e update w)) =
    snd (store_user_token (storage self) (sql e 0%nat) (nonce e) (db w)
           (user_id update)
           (or_else (user_username update) (user_first_name update))
           (strip (join (lit " ") (args update))) None).
Proof.
  unfold configure_command. run. unfold item.
  repeat (branch; cbn [snd db]); subst;
    try (left; reflexivity); try discriminate; clean_ok.
  all: right; eexists; (split; [arith|]); (split; [reflexivity|]);
    (split; [apply negb_false_iff; assumption | reflexivity]).
Qed.

(** Under the contract of the cipher, a token of scalar values that is
    stored can be read back. *)
Lemma store_user_token_readable {L : FernetLaws F} (self : UserStorage)
    (env env' : sqlite_env) (nonce : fnonce) (d : DB) (uid : Z)
    (uname token : pystr) (url : option pystr) :
  Forall scalar token ->
  sqlite_fault env = false ->
  sqlite_fault env' = false ->
  fst (store_user_token self env nonce d uid uname token url) = true /\
  get_user_token self env'
    (snd (store_user_token self env nonce d uid uname token url)) uid
  = Some token /\
  get_user_config self env'
    (snd (store_user_token self env nonce d uid uname token url)) uid
  = Some {| cfg_token := token; cfg_blinko_url := url;
            cfg_username := uname;
            cfg_created_at := current_timestamp env |}.
Proof.
  intros Hs Hf Hf'.
  destruct (encrypt_token_scalar (cipher self) nonce token Hs)
    as (bs & Hbs & Hb & Hct).
  assert (Hstore :
    store_user_token self env nonce d uid uname token url =
    (true,
     {| user_tokens :=
          insert_or_replace_user_tokens (current_timestamp env) uid uname
            (fernet_encrypt (cipher self) nonce bs) url (user_tokens d);
        note_messages := note_messages d |})).
  { unfold store_user_token. rewrite Hct. cbn [rbind].
    rewrite transaction_quiet by exact Hf. reflexivity. }
  rewrite Hstore. cbn [fst snd].
  pose proof (decrypt_token_same_key (cipher self) nonce token bs Hbs) as Hd.
  split; [reflexivity|].
  unfold get_user_token, get_user_config.
  rewrite !transaction_quiet by exact Hf'. cbn [user_tokens].
  unfold insert_or_replace_user_tokens.
  rewrite find_filter_out by (unfold user_key; cbn; apply Z.eqb_refl).
  cbn [encrypted_token blinko_url username created_at]. rewrite Hd.
  split; reflexivity.
Qed.

(** Without a token, [_create_note] and [handle_reply_update] answer
    "not configured" and do nothing else. *)
Lemma unconfigured (self : BlinkoTelegramBot) (e : env)
    (update : Update) (note_type : Z) (type_name : pystr) (w : World) :
  get_user_token (storage self) (sql e 0%nat) (db w) (user_id update)
  = None ->
  _create_note self e update note_type type_name w
  = handle_reply_update self e update w /\
  _create_note self e update note_type type_name w =
  match telegram e TokenNotConfigured with
  | Ok _ =>
      (Ok tt,
       {| db := db w; requests := requests w;
          sent := sent w ++ [TokenNotConfigured] |})
  | Raise x => (Raise x, w)
  end.
Proof.
  intros H. unfold _create_note, handle_reply_update. run. rewrite H.
  destruct (telegram e TokenNotConfigured); split; reflexivity.
Qed.

Lemma reset_command_db (self : BlinkoTelegramBot) (e : env)
    (update : Update) (w : World) :
  db (snd (reset_command self e update w))
  = snd (remove_user_token (storage self) (sql e 0%nat) (db w)
           (user_id update)) /\
  requests (snd (reset_command self e update w)) = requests w.
Proof.
  unfold reset_command. run.
  repeat (branch; cbn [snd db requests]); split; reflexivity.
Qed.

Lemma get_after_store_note (self : UserStorage) (env env' : sqlite_env)
    (d : DB) (uid mid cid : Z) (nid : pystr) (ntype : Z) :
  sqlite_fault env = false ->
  sqlite_fault env' = false ->
  get_note_from_reply self env'
    (snd (store_note_message self env d uid mid cid nid ntype)) uid mid cid
  = Some (nid, ntype).
Proof.
  intros Hf Hf'. rewrite store_note_message_result, Hf. cbn [snd].
  unfold get_note_from_reply. rewrite transaction_quiet by exact Hf'.
  cbn [note_messages]. unfold insert_or_replace_note_messages.
  rewrite find_filter_out; [reflexivity|].
  apply note_key_spec. reflexivity.
Qed.

Lemma truthy_cons (s : pystr) : s <> [] -> PyStr.truthy s = true.
Proof. destruct s; [congruence | reflexivity]. Qed.

End WithCipher.
End MoreBotFacts.

(** ** Properties of the command handlers *)

Module HandlerProperties.
Import Utf8 Utf8Facts Storage TableFacts StorageFacts BlinkoApi Bot
  ClientFacts BotFacts Vocabulary MoreStorageFacts ClientProperties
  MoreBotFacts.




(** X16.  [configure_command] stores nothing that it did not test: it
    changes the file only by one [store_user_token] of the trimmed
    token, of at least 10 characters, after a test that succeeded; when
    the remote service answers the test with 401, or no answer comes
    (timeout, connection failure, any exception), the file is left as it
    was; and it never touches the correlations. *)
Theorem configure_stores_only_tested_tokens
    {F : Fernet} {R : PyRepr} (self : BlinkoTelegramBot) (e : env)
    (update : Update) (w : World) :
  let token := strip (join (lit " ") (args update)) in
  let r := configure_command self e update w in
  (db (snd r) <> db w ->
   10 <= len token /\
   (exists success : pyval,
       lookup (fst (test_token (blinko_api self) (net e) token))
         (lit "success") = Some success /\
       truth success = true) /\
   db (snd r) =
   snd (store_user_token (storage self) (sql e 0%nat) (nonce e) (db w)
          (user_id update)
          (or_else (user_username update) (user_first_name update))
          token None)) /\
  (forall resp : response,
      net e (probe_request (blinko_api self) token) = Ok resp ->
      status_code resp = 401 -> db (snd r) = db w) /\
  (forall x : exn,
      net e (probe_request (blinko_api self) token) = Raise x ->
      db (snd r) = db w) /\
  note_messages (db (snd r)) = note_messages (db w).
Proof.
  cbv zeta.
  pose proof (test_token_rejects (blinko_api self) (net e)
                (strip (join (lit " ") (args update)))) as [H401 Hexn].
  split; [|split; [|split]].
  - intros Hne.
    destruct (configure_command_db self e update w)
      as [Heq | (success & Hlen & Hs & Ht & Hdb)]; [contradiction|].
    split; [exact Hlen|]. split; [|exact Hdb]. exists success. auto.
  - intros resp Hnet Hst.
    destruct (configure_command_db self e update w)
      as [Heq | (success & Hlen & Hs & Ht & Hdb)]; [exact Heq|].
    rewrite (H401 resp Hnet Hst) in Hs. injection Hs as <-. discriminate.
  - intros x Hnet.
    destruct (configure_command_db self e update w)
      as [Heq | (success & Hlen & Hs & Ht & Hdb)]; [exact Heq|].
    rewrite (Hexn x Hnet), success_of_on_exception in Hs.
    injection Hs as <-. discriminate.
  - exact (handle_tables self OnConfigure e update w).
Qed.

(** X17.  Without a readable credential nothing is sent: when
    [get_user_token] gives [None] for the user (no row, a row that does
    not decrypt, or a fault of SQLite), [_create_note] and
    [handle_reply_update] send no request and leave the file as it was;
    they answer "token not configured" and stop. *)
Theorem no_credential_no_request
    {F : Fernet} {R : PyRepr} (self : BlinkoTelegramBot) (e : env)
    (update : Update) (note_type : Z) (type_name : pystr) (w : World) :
  get_user_token (storage self) (sql e 0%nat) (db w) (user_id update)
  = None ->
  let r1 := _create_note self e update note_type type_name w in
  let r2 := handle_reply_update self e update w in
  requests (snd r1) = requests w /\ db (snd r1) = db w /\
  requests (snd r2) = requests w /\ db (snd r2) = db w /\
  forall mid : Z,
    telegram e TokenNotConfigured = Ok mid ->
    r1 = (Ok tt,
          {| db := db w; requests := requests w;
             sent := sent w ++ [TokenNotConfigured] |}) /\
    r2 = r1.
Proof.
  intros H r1 r2. subst r1 r2.
  destruct (unconfigured self e update note_type type_name w H)
    as [Hsame Hrun].
  rewrite <- Hsame, Hrun.
  destruct (telegram e TokenNotConfigured) as [m|x]; cbn [snd db requests];
    repeat split; try reflexivity; intros; discriminate.
Qed.

Lemma no_credential_no_request_witness :
  get_user_token Sample.store Sample.quiet Sample.db_unreadable 7 = None /\
  _create_note (R := Sample.repr) Sample.bot
    (Sample.calm (Scenario.creating 17) 1000)
    (Sample.command 7 [lit "Buy"; lit "milk"]) 0 (lit "note")
    {| db := Sample.db_unreadable; requests := []; sent := [] |}
  = (Ok tt,
     {| db := Sample.db_unreadable; requests := [];
        sent := [TokenNotConfigured] |}).
Proof.
  assert (H : get_user_token Sample.store Sample.quiet
                Sample.db_unreadable 7 = None) by reflexivity.
  split; [exact H|].
  destruct (no_credential_no_request (R := Sample.repr) Sample.bot
              (Sample.calm (Scenario.creating 17) 1000)
              (Sample.command 7 [lit "Buy"; lit "milk"]) 0 (lit "note")
              {| db := Sample.db_unreadable; requests := []; sent := [] |} H)
    as (_ & _ & _ & _ & Hrun).
  exact (proj1 (Hrun 1000 eq_refl)).
Defined.

(** X18.  One request per command at most: every handler only adds to
    the requests sent and to the messages sent; [/start], [/help] and
    [/reset] send no request; [/configure] and [/status] send at most one
    request and it is a GET; [/note], [/blinko] and a reply send at most
    one request and it is a POST; every request goes out of the session
    of the bot's client; and at most two messages are sent. *)
Theorem one_request_per_command
    {F : Fernet} {R : PyRepr} (self : BlinkoTelegramBot) (h : handler)
    (e : env) (update : Update) (w : World) :
  exists (reqs : list request) (msgs : list reply),
    requests (snd (handle self h e update w)) = requests w ++ reqs /\
    sent (snd (handle self h e update w)) = sent w ++ msgs /\
    (List.length msgs <= 2)%nat /\
    match h with
    | OnStart | OnHelp | OnReset => reqs = []
    | OnConfigure | OnStatus => at_most_one (blinko_api self) is_get reqs
    | OnNote | OnBlinko | OnReply =>
        at_most_one (blinko_api self) is_post reqs
    end.
Proof.
  destruct h; cbn [handle]; unfold_handlers;
    run; unfold item, contains;
    repeat (branch; cbn [snd db requests sent]); subst;
    do 2 eexists; (split; [log_tail|]); (split; [log_tail|]);
    (split; [cbn; lia|]);
    first [ reflexivity
          | apply no_requests
          | apply create_note_requests
          | apply update_note_requests
          | apply test_token_requests ].
Qed.

(** X19.  Which handler writes which table: [/configure] and [/reset]
    never change [note_messages]; [/note], [/blinko] and a reply never
    change [user_tokens]; [/start], [/help] and [/status] never change the
    file. *)
Theorem handlers_write_their_own_table
    {F : Fernet} {R : PyRepr} (self : BlinkoTelegramBot) (h : handler)
    (e : env) (update : Update) (w : World) :
  match h with
  | OnConfigure | OnReset =>
      note_messages (db (snd (handle self h e update w)))
      = note_messages (db w)
  | OnNote | OnBlinko | OnReply =>
      user_tokens (db (snd (handle self h e update w))) = user_tokens (db w)
  | OnStart | OnHelp | OnStatus =>
      db (snd (handle self h e update w)) = db w
  end.
Proof.
  destruct h; cbn [handle]; unfold_handlers;
    run; unfold item, contains;
    repeat (branch; cbn [snd db]); subst; try reflexivity; try discriminate;
    clean_ok;
    first [ eapply store_user_token_eq_notes; eassumption
          | eapply remove_user_token_eq_notes; eassumption
          | eapply store_note_message_eq_users; eassumption ].
Qed.

(** X20.  A command of one user changes nothing of another: whatever
    the handler and whatever it meets, the credential rows and the
    correlation rows of every other user are what they were. *)
Theorem other_users_are_untouched
    {F : Fernet} {R : PyRepr} (self : BlinkoTelegramBot) (h : handler)
    (e : env) (update : Update) (w : World) (uid' : Z) :
  uid' <> user_id update ->
  rows_of uid' (db (snd (handle self h e update w))) = rows_of uid' (db w) /\
  notes_of_user uid' (db (snd (handle self h e update w)))
  = notes_of_user uid' (db w).
Proof.
  intros Hne.
  destruct h; cbn [handle]; unfold_handlers;
    run; unfold item, contains;
    repeat (branch; cbn [snd db]); subst;
    try (split; reflexivity); try discriminate; clean_ok.
  all: try (eapply store_user_token_eq_other; eassumption).
  all: try (eapply remove_user_token_eq_other; eassumption).
  all: eapply store_note_message_eq_other; eassumption.
Qed.

Lemma other_users_are_untouched_witness :
  42 <> user_id (Sample.command 43 []) /\
  rows_of 42
    (db (snd (handle (R := Sample.repr) Sample.bot OnReset
                (Sample.calm (Scenario.creating 17) 1000)
                (Sample.command 43 []) Sample.world_42)))
  = rows_of 42 (db Sample.world_42).
Proof.
  assert (H : 42 <> user_id (Sample.command 43 [])) by (cbn; lia).
  split; [exact H|].
  exact (proj1 (other_users_are_untouched (R := Sample.repr) Sample.bot
                  OnReset (Sample.calm (Scenario.creating 17) 1000)
                  (Sample.command 43 []) Sample.world_42 42 H)).
Defined.



(** X22.  A reply that is none of the bot's business is ignored: when
    the user has a token, and the message is no reply, or a reply to a
    message that the bot did not write, or a reply to a message of the
    bot that has no correlation for this user and chat, then
    [handle_reply_update] sends nothing, writes nothing and says
    nothing. *)
Theorem reply_elsewhere_is_ignored
    {F : Fernet} {R : PyRepr} (self : BlinkoTelegramBot) (e : env)
    (update : Update) (w : World) (token : pystr) :
  get_user_token (storage self) (sql e 0%nat) (db w) (user_id update)
  = Some token ->
  token <> [] ->
  reply_to_message update = None \/
  (exists m a : Z,
      reply_to_message update = Some (m, a) /\
      (a <> bot_id update \/
       get_note_from_reply (storage self) (sql e 1%nat) (db w)
         (user_id update) m (chat_id update) = None)) ->
  handle_reply_update self e update w = (Ok tt, w).
Proof.
  intros Hget Htok Hcase. unfold handle_reply_update. run. rewrite Hget.
  destruct token as [|c token]; [congruence|].
  destruct Hcase as [Hnone | (m & a & Hsome & Hcase)].
  - rewrite Hnone. reflexivity.
  - rewrite Hsome. destruct (a =? bot_id update) eqn:E; cbn [negb];
      [|reflexivity].
    destruct Hcase as [Hne | Hnote]; [arith|].
    rewrite Hnote. reflexivity.
Qed.

Lemma reply_elsewhere_is_ignored_witness :
  handle_reply_update (R := Sample.repr) Sample.bot
    (Sample.calm (Scenario.creating 99) 1001)
    (Scenario.reply 42 1000 555 (lit "Buy milk and eggs"))
    Scenario.world_note
  = (Ok tt, Scenario.world_note).
Proof.
  assert (Ht : lit "secret-token-0001" <> []) by (vm_compute; discriminate).
  refine (reply_elsewhere_is_ignored (R := Sample.repr) Sample.bot
            (Sample.calm (Scenario.creating 99) 1001)
            (Scenario.reply 42 1000 555 (lit "Buy milk and eggs"))
            Scenario.world_note (lit "secret-token-0001") eq_refl Ht _).
  right. exists 1000, 555. split; [reflexivity|]. left. cbn. lia.
Defined.

(** X23.  After a reset the user has to configure again: when SQLite
    does not fault during [/reset], the user is left with no credential
    row, and a [/note] or [/blinko] of the same user that follows sends
    no request, writes nothing, and answers "token not configured". *)
Theorem reset_then_note_is_refused
    {F : Fernet} {R : PyRepr} (self : BlinkoTelegramBot) (e1 e2 : env)
    (update1 update2 : Update) (note_type : Z) (type_name : pystr)
    (w : World) :
  sqlite_fault (sql e1 0%nat) = false ->
  user_id update2 = user_id update1 ->
  let w1 := snd (reset_command self e1 update1 w) in
  let r := _create_note self e2 update2 note_type type_name w1 in
  rows_of (user_id update1) (db w1) = [] /\
  requests (snd r) = requests w /\
  db (snd r) = db w1 /\
  forall mid : Z,
    telegram e2 TokenNotConfigured = Ok mid ->
    fst r = Ok tt /\ sent (snd r) = sent w1 ++ [TokenNotConfigured].
Proof.
  intros Hf Huid w1 r. subst r w1.
  destruct (reset_command_db self e1 update1 w) as [Hdb Hreq].
  assert (Hrem : fst (remove_user_token (storage self) (sql e1 0%nat)
                        (db w) (user_id update1)) = true).
  { rewrite remove_user_token_result, Hf. reflexivity. }
  assert (Hnone :
    get_user_token (storage self) (sql e2 0%nat)
      (db (snd (reset_command self e1 update1 w))) (user_id update2)
    = None).
  { rewrite Hdb, Huid. apply get_after_remove, Hrem. }
  destruct (unconfigured self e2 update2 note_type type_name _ Hnone)
    as [_ Hrun].
  rewrite Hrun. split.
  - rewrite Hdb, remove_user_token_result, Hf. cbn [snd].
    unfold rows_of. cbn [user_tokens].
    induction (user_tokens (db w)) as [|x t IH]; cbn; [reflexivity|].
    destruct (user_key (user_id update1) x) eqn:E; cbn; [exact IH|].
    rewrite E. exact IH.
  - destruct (telegram e2 TokenNotConfigured) as [m|x];
      cbn [fst snd db requests sent]; rewrite ?Hreq;
      repeat split; try reflexivity; intros; discriminate.
Qed.

Lemma reset_then_note_is_refused_witness :
  let e := Sample.calm (Scenario.creating 17) 1000 in
  let w1 := snd (reset_command Sample.bot e (Sample.command 42 [])
                   Sample.world_42) in
  let r := _create_note (R := Sample.repr) Sample.bot e
             (Sample.command 42 [lit "Buy"; lit "milk"]) 0 (lit "note")
             w1 in
  fst r = Ok tt /\ sent (snd r) = sent w1 ++ [TokenNotConfigured].
Proof.
  cbv zeta.
  destruct (reset_then_note_is_refused (R := Sample.repr) Sample.bot
              (Sample.calm (Scenario.creating 17) 1000)
              (Sample.calm (Scenario.creating 17) 1000)
              (Sample.command 42 [])
              (Sample.command 42 [lit "Buy"; lit "milk"]) 0 (lit "note")
              Sample.world_42 eq_refl eq_refl)
    as (_ & _ & _ & Hrun).
  exact (Hrun 1000 eq_refl).
Defined.



(** X25.  [/status] reads and reports: it never changes the file; with
    no configuration to read it sends no request and answers "not
    configured"; with one it sends exactly one request, the test of the
    stored token, and when an answer comes it reports the token active
    unless the status is 401, in which case it reports the issue
    "Invalid or expired token"; the report names the user and the first
    10 characters of the time of configuration. *)
Theorem status_reports_without_writing
    {F : Fernet} {R : PyRepr} (self : BlinkoTelegramBot) (e : env)
    (update : Update) (w : World) :
  let r := status_command self e update w in
  let config := get_user_config (storage self) (sql e 0%nat) (db w)
                  (user_id update) in
  db (snd r) = db w /\
  (config = None ->
   requests (snd r) = requests w /\
   forall mid : Z,
     telegram e NotConfigured = Ok mid ->
     r = (Ok tt,
          {| db := db w; requests := requests w;
             sent := sent w ++ [NotConfigured] |})) /\
  (forall cfg : user_config,
      config = Some cfg ->
      let probe := probe_request (blinko_api self) (cfg_token cfg) in
      requests (snd r) = requests w ++ [probe] /\
      forall (resp : response) (mid : Z),
        net e probe = Ok resp ->
        let active := negb (status_code resp =? 401) in
        let issue :=
          if active then None else Some (lit "Invalid or expired token") in
        let report :=
          ConfigurationStatus active (cfg_username cfg) issue
            (prefix 10 (cfg_created_at cfg)) in
        telegram e report = Ok mid ->
        r = (Ok tt,
             {| db := db w; requests := requests w ++ [probe];
                sent := sent w ++ [report] |})).
Proof.
  cbv zeta. split; [exact (handle_tables self OnStatus e update w)|].
  split.
  - intros Hcfg. unfold status_command. run. rewrite Hcfg.
    destruct (telegram e NotConfigured) as [m|x]; cbn [snd requests];
      split; try reflexivity; intros; discriminate.
  - intros cfg Hcfg. split.
    + unfold status_command. run. rewrite Hcfg. unfold item.
      repeat (branch; cbn [snd requests]); reflexivity.
    + intros resp mid Hnet Htg.
      unfold status_command. run. rewrite Hcfg. unfold item.
      destruct (status_code resp =? 401) eqn:E1; cbn [negb] in Htg.
      * apply Z.eqb_eq in E1.
        rewrite (proj1 (test_token_rejects _ (net e) _) resp Hnet E1).
        change (lookup (unauthorized_failure (lit "Invalid or expired token"))
                  (lit "success")) with (Some (VBool false)).
        change (lookup (unauthorized_failure (lit "Invalid or expired token"))
                  (lit "message"))
          with (Some (VStr (lit "Invalid or expired token"))).
        cbn [truth negb str]. rewrite Htg. reflexivity.
      * assert (Hne : status_code resp <> 401) by arith.
        rewrite (test_token_accepts _ (net e) _ _ Hnet Hne).
        cbn [truth negb]. rewrite Htg. reflexivity.
Qed.

End HandlerProperties.

(** ** Properties of the start-up *)

Module StartupProperties.
Import Utf8 Utf8Facts Storage StorageFacts Startup.

Lemma sample_keys_laws : FernetKeysLaws Scenario.keys.
Proof.
  split; cbn [fernet_generate_key fernet_new Scenario.keys];
    unfold Scenario.generated_key.
  - intros _. apply Forall_cons; [unfold ascii_byte; lia | apply Forall_nil].
  - intros _. discriminate.
  - intros _. exists true. reflexivity.
Qed.

Lemma _init_db_of_file (env : sqlite_env) (d : DB) :
  sqlite_fault env = false -> _init_db env (file_of d) = Ok d.
Proof.
  intros Hf. unfold _init_db. rewrite transaction_quiet by exact Hf.
  destruct d; reflexivity.
Qed.

(** X26.  A restart with the same configured key finds everything: when
    [__init__] succeeded once with a key that is not empty, then on any
    later start with the same key and a file that holds the tables,
    whatever the randomness, it succeeds if SQLite does not fault, with
    the same cipher, with the rows of the file untouched, and without
    the warning about a generated key. *)
Theorem restart_keeps_credentials
    {F : Fernet} {K : FernetKeys F} (path key : pystr)
    (rnd1 rnd2 : fnonce) (env1 env2 : sqlite_env) (file : db_file)
    (d : DB) (o1 : init_outcome) :
  key <> [] ->
  init path (Some key) rnd1 env1 file = Started o1 ->
  sqlite_fault env2 = false ->
  init path (Some key) rnd2 env2 (file_of d) =
  Started {| the_storage := the_storage o1; the_db := d;
             warned_auto_key := false |}.
Proof.
  intros Hkey H1 Hf. unfold init in *.
  destruct key as [|c text]; [congruence|].
  destruct (encode (c :: text)) as [bytes|]; [|discriminate].
  destruct (fernet_new bytes) as [k|]; [|discriminate].
  rewrite (_init_db_of_file env2 d Hf).
  destruct (_init_db env1 file) as [d1|]; [|discriminate].
  injection H1 as <-. reflexivity.
Qed.

Lemma restart_keeps_credentials_witness :
  init (K := Scenario.keys) (lit "./bot_data.db") (Some (lit "K")) tt
    Sample.quiet
    (file_of Sample.db_42)
  = Started {| the_storage := Sample.store; the_db := Sample.db_42;
               warned_auto_key := false |}.
Proof.
  assert (Hk : lit "K" <> []) by (vm_compute; discriminate).
  exact (restart_keeps_credentials (K := Scenario.keys)
           (lit "./bot_data.db") (lit "K") tt tt
           Sample.quiet Sample.quiet
           {| file_user_tokens := None; file_note_messages := None |}
           Sample.db_42
           {| the_storage := Sample.store; the_db := empty_db;
              warned_auto_key := false |}
           Hk eq_refl eq_refl).
Defined.

(** X27.  With no key the store makes one up: an absent key and an empty
    key are treated alike; [__init__] then builds the cipher from a key
    generated from the system's randomness and logs the warning; it
    creates the tables that the file lacks and keeps those it has; and a
    fault of SQLite in [_init_db] makes the start fail. *)
Theorem no_key_means_generated_key
    {F : Fernet} {K : FernetKeys F} (KL : FernetKeysLaws K) (path : pystr)
    (rnd : fnonce) (env : sqlite_env) (file : db_file) :
  init path None rnd env file = init path (Some []) rnd env file /\
  (sqlite_fault env = true -> init path None rnd env file = DatabaseFailed) /\
  (sqlite_fault env = false ->
   exists k : fkey,
     fernet_new (fernet_generate_key rnd) = Some k /\
     init path None rnd env file =
     Started
       {| the_storage := {| db_path := path; cipher := k |};
          the_db :=
            {| user_tokens :=
                 match file_user_tokens file with
                 | Some rows => rows
                 | None => []
                 end;
               note_messages :=
                 match file_note_messages file with
                 | Some rows => rows
                 | None => []
                 end |};
          warned_auto_key := true |}).
Proof.
  destruct (generated_accepted rnd) as [k Hk].
  split; [reflexivity|]. unfold init, _init_db, transaction. rewrite Hk.
  split; intros ->; [reflexivity|]. exists k. split; reflexivity.
Qed.

Lemma no_key_means_generated_key_witness :
  init (K := Scenario.keys) (lit "./bot_data.db") None tt Scenario.faulty
    (file_of Sample.db_42)
  = DatabaseFailed.
Proof.
  exact (proj1 (proj2 (no_key_means_generated_key sample_keys_laws
                         (lit "./bot_data.db") tt Scenario.faulty
                         (file_of Sample.db_42))) eq_refl).
Defined.

(** X28.  The key that generate_key.py prints is one the store takes:
    [generate_encryption_key] gives text, and [__init__] with that text
    as key builds the cipher of the generated key, whatever the
    randomness of the later start, without the warning. *)
Theorem generated_key_is_accepted
    {F : Fernet} {K : FernetKeys F} (KL : FernetKeysLaws K) (path : pystr)
    (rnd rnd' : fnonce) (env : sqlite_env) (d : DB) :
  sqlite_fault env = false ->
  exists (text : pystr) (k : fkey),
    generate_encryption_key rnd = Ok text /\
    fernet_new (fernet_generate_key rnd) = Some k /\
    init path (Some text) rnd' env (file_of d) =
    Started {| the_storage := {| db_path := path; cipher := k |};
               the_db := d; warned_auto_key := false |}.
Proof.
  intros Hf. destruct (generated_accepted rnd) as [k Hk].
  pose proof (generated_ascii rnd) as Ha.
  pose proof (generated_nonempty rnd) as Hn.
  exists (fernet_generate_key rnd), k.
  split; [apply decode_ascii, Ha|]. split; [exact Hk|].
  unfold init.
  destruct (fernet_generate_key rnd) as [|c text] eqn:Hg; [congruence|].
  rewrite (encode_ascii _ Ha), Hk, (_init_db_of_file env d Hf).
  reflexivity.
Qed.

Lemma generated_key_is_accepted_witness :
  exists (text : pystr) (k : @fkey Sample.cipher),
    generate_encryption_key (K := Scenario.keys) tt = Ok text /\
    @fernet_new _ Scenario.keys (@fernet_generate_key _ Scenario.keys tt)
    = Some k /\
    init (K := Scenario.keys) (lit "./bot_data.db") (Some text) tt
      Sample.quiet (file_of Sample.db_42)
    = Started {| the_storage :=
                   {| db_path := lit "./bot_data.db"; cipher := k |};
                 the_db := Sample.db_42; warned_auto_key := false |}.
Proof.
  exact (generated_key_is_accepted (K := Scenario.keys) sample_keys_laws (lit "./bot_data.db")
           tt tt Sample.quiet Sample.db_42 eq_refl).
Defined.

End StartupProperties.
